(** * clean_data.py: the final cleaning pass over the property listings

    A shallow embedding of [finalize_property_data] (src/clean_data.py) and
    of the pandas operations it calls, followed by the properties of the
    transformation.

    Conventions of the embedding.
    - A numeric value is an IEEE-754 binary64 ([float]); an [int64] column
      is kept by its [float64] image, which is what the median, the
      comparison with 0 and the true division of the script work on.
    - A missing value is NaN, as in pandas: [isna] is the NaN test.
    - A column is a [Series] with its dtype: [FloatCol] (float64) or
      [ObjCol] (object: text, NaN, and the numbers kept by an upcast).
      Every number of an object column is a float, as [read_csv] gives
      when it infers the type over the whole column.  A file read in
      several chunks (beyond 2^18 rows) can give an object column that
      mixes Python integers with text; such a column is not represented.
    - A frame is the ordered list of its named columns.  The row index is
      not modelled: every series the script combines is derived from the
      same frame and carries the same labels.
    - pandas behaves as a 2.x release without copy-on-write: the idiom
      [df[col].fillna(v, inplace=True)] updates the column of [df]. *)

From Stdlib Require Import PrimFloat SpecFloat FloatOps ZArith.
From Stdlib Require Import Ascii String List Bool Arith Lia.
From stdpp Require Import base option list strings gmap pretty.
Import ListNotations.
Local Open Scope string_scope.

(** ** Values, columns and frames *)

Inductive cell : Type :=
| Num (x : float)
| Str (s : string).

Definition NaN : cell := Num nan.

Definition isna (c : cell) : bool :=
  match c with
  | Num x => is_nan x
  | Str _ => false
  end.

Definition notna (c : cell) : bool := negb (isna c).

Inductive Series : Type :=
| FloatCol (xs : list float)
| ObjCol (cs : list cell).

Definition values (s : Series) : list cell :=
  match s with
  | FloatCol xs => map Num xs
  | ObjCol cs => cs
  end.

Definition DataFrame : Type := list (string * Series).

(** ** Exceptions *)

Inductive exn : Type :=
| FileNotFoundError (path : string)
| OSError (path : string)
| KeyError (keys : list string)
| TypeError
| AttributeError
| ImportError.

Inductive result (A : Type) : Type :=
| OK (a : A)
| Raise (e : exn).
Arguments OK {A} a.
Arguments Raise {A} e.

Definition bind {A B} (r : result A) (k : A -> result B) : result B :=
  match r with
  | OK a => k a
  | Raise e => Raise e
  end.

Notation "'let*' x := r 'in' k" := (bind r (fun x => k))
  (at level 10, x name, r at level 100, k at level 200).

Fixpoint mapM {A B} (f : A -> result B) (l : list A) : result (list B) :=
  match l with
  | [] => OK []
  | a :: l' =>
      let* b := f a in
      let* bs := mapM f l' in
      OK (b :: bs)
  end.

Fixpoint foldM {A B} (f : B -> A -> result B) (l : list A) (b : B) : result B :=
  match l with
  | [] => OK b
  | a :: l' => let* b' := f b a in foldM f l' b'
  end.

(** ** Frame operations *)

(** [df.columns] *)
Definition columns (df : DataFrame) : list string := map fst df.

Fixpoint get_col (name : string) (df : DataFrame) : option Series :=
  match df with
  | [] => None
  | (n, s) :: df' => if String.eqb n name then Some s else get_col name df'
  end.

(** [col in df.columns] *)
Definition has_col (name : string) (df : DataFrame) : bool :=
  match get_col name df with Some _ => true | None => false end.

(** [df[name]] *)
Definition getitem (name : string) (df : DataFrame) : result Series :=
  match get_col name df with
  | Some s => OK s
  | None => Raise (KeyError [name])
  end.

(** [df[name] = s]: an existing column is replaced where it stands, a new
    one is added last. *)
Fixpoint setitem (name : string) (s : Series) (df : DataFrame) : DataFrame :=
  match df with
  | [] => [(name, s)]
  | (n, s') :: df' =>
      if String.eqb n name then (n, s) :: df' else (n, s') :: setitem name s df'
  end.

(** [len(df)] *)
Definition len (df : DataFrame) : nat :=
  match df with
  | [] => 0
  | (_, s) :: _ => length (values s)
  end.

(** Boolean indexing: the entries whose mask bit is set, in order. *)
Fixpoint select {A} (mask : list bool) (xs : list A) : list A :=
  match mask, xs with
  | b :: mask', x :: xs' => if b then x :: select mask' xs' else select mask' xs'
  | _, _ => []
  end.

Definition take (mask : list bool) (s : Series) : Series :=
  match s with
  | FloatCol xs => FloatCol (select mask xs)
  | ObjCol cs => ObjCol (select mask cs)
  end.

(** [df[mask]] *)
Definition loc (mask : list bool) (df : DataFrame) : DataFrame :=
  map (fun '(n, s) => (n, take mask s)) df.

(** [df.dropna(subset=[a, b])]: a [KeyError] names the labels of the subset
    that are not columns. *)
Definition dropna (a b : string) (df : DataFrame) : result DataFrame :=
  match get_col a df, get_col b df with
  | Some sa, Some sb =>
      OK (loc (zip_with andb (map notna (values sa)) (map notna (values sb))) df)
  | _, _ => Raise (KeyError (List.filter (fun k => negb (has_col k df)) [a; b]))
  end.

(** [s > 0].  On an object column the comparison is made element by
    element: NaN compares false, text against a number is a [TypeError]. *)
Definition gt_zero_cell (c : cell) : result bool :=
  match c with
  | Num x => OK (PrimFloat.ltb 0 x)
  | Str _ => Raise TypeError
  end.

Definition gt_zero (s : Series) : result (list bool) :=
  mapM gt_zero_cell (values s).

(** [df.drop(columns=names, errors='ignore')] *)
Definition drop (names : list string) (df : DataFrame) : DataFrame :=
  List.filter (fun '(n, _) => negb (existsb (String.eqb n) names)) df.

(** [df[names]] for a list of labels that are all columns of [df]. *)
Fixpoint getitems (names : list string) (df : DataFrame) : result DataFrame :=
  match names with
  | [] => OK []
  | n :: names' =>
      let* s := getitem n df in
      let* rest := getitems names' df in
      OK ((n, s) :: rest)
  end.

(** ** Imputation *)

Fixpoint insert_sorted (x : float) (l : list float) : list float :=
  match l with
  | [] => [x]
  | y :: l' => if PrimFloat.leb x y then x :: l else y :: insert_sorted x l'
  end.

Definition sort_floats (l : list float) : list float :=
  fold_right insert_sorted [] l.

(** The median of the values that are not NaN: the middle one, or the mean
    of the two middle ones; NaN when there is none. *)
Definition nanmedian (xs : list float) : float :=
  let v := sort_floats (List.filter (fun x => negb (is_nan x)) xs) in
  let n := length v in
  if Nat.eqb n 0 then nan
  else if Nat.even n then
    PrimFloat.div (PrimFloat.add (nth (n / 2 - 1) v nan) (nth (n / 2) v nan)) 2
  else nth (n / 2) v nan.

Definition to_float (c : cell) : result float :=
  match c with
  | Num x => OK x
  | Str _ => Raise TypeError
  end.

(** [s.median()].  On an object column pandas raises [TypeError] when the
    values are inferred as text or as text mixed with floats, and converts
    the column to float64 otherwise: with the cells of this embedding,
    text in an object column raises and a column of floats is converted. *)
Definition median (s : Series) : result float :=
  match s with
  | FloatCol xs => OK (nanmedian xs)
  | ObjCol cs => let* xs := mapM to_float cs in OK (nanmedian xs)
  end.

Definition fill_cell (v c : cell) : cell := if isna c then v else c.

(** [s.fillna(v)].  A float column filled with text is upcast to object
    when it has a value to fill, and is left alone otherwise. *)
Definition fillna (v : cell) (s : Series) : Series :=
  match s, v with
  | FloatCol xs, Num y => FloatCol (map (fun x => if is_nan x then y else x) xs)
  | FloatCol xs, Str _ =>
      if existsb is_nan xs then ObjCol (map (fill_cell v) (map Num xs)) else s
  | ObjCol cs, _ => ObjCol (map (fill_cell v) cs)
  end.

Definition numerical_cols : list string :=
  [ "Washrooms"; "Floor_Number"; "Total_Floors"; "Open_Sides";
    "Plot_Length"; "Plot_Breadth"; "Entrance_Width_ft"; "Road_Width_m" ].

Definition categorical_cols : list string :=
  [ "Property_Age"; "Zoning"; "Facing"; "Overlooking";
    "Pantry"; "Furnishing_Status"; "Possession_Date" ].

(** Body of the first loop: [df[col].fillna(median_val, inplace=True)]
    writes through to the column of [df]. *)
Definition impute_numeric (df : DataFrame) (col : string) : result DataFrame :=
  match get_col col df with
  | Some s =>
      let* median_val := median s in
      OK (setitem col (fillna (Num median_val) s) df)
  | None => OK df
  end.

(** Body of the second loop. *)
Definition impute_categorical (df : DataFrame) (col : string) : result DataFrame :=
  match get_col col df with
  | Some s => OK (setitem col (fillna (Str "Not Specified") s) df)
  | None => OK df
  end.

(** ** Property age *)

Definition age_map : list (string * float) :=
  [ ("New Construction", 0%float);
    ("Less than 5 years old", 2.5%float);
    ("5 to 10 years old", 7.5%float);
    ("10 to 15 years old", 12.5%float);
    ("15 to 20 years old", 17.5%float);
    ("Above 20 years old", 25%float);
    ("Not Specified", (-1)%float) ].

Fixpoint dict_get (d : list (string * float)) (k : string) : option float :=
  match d with
  | [] => None
  | (k', v) :: d' => if String.eqb k' k then Some v else dict_get d' k
  end.

(** [s.map(d)]: a value that is not a key of [d] becomes NaN. *)
Definition map_cell (d : list (string * float)) (c : cell) : float :=
  match c with
  | Str k => match dict_get d k with Some v => v | None => nan end
  | Num _ => nan
  end.

Definition map_dict (d : list (string * float)) (s : Series) : Series :=
  FloatCol (map (map_cell d) (values s)).

(** ** Text: the [.str] accessor and the regular expression

    Text is a sequence of code points below U+0100.  [is_digit] is [\d] and
    [is_space] is both [\s] and the white space of [str.strip()] there. *)

Definition is_digit (c : ascii) : bool :=
  let n := nat_of_ascii c in Nat.leb 48 n && Nat.leb n 57.

Definition is_space (c : ascii) : bool :=
  let n := nat_of_ascii c in
  (Nat.leb 9 n && Nat.leb n 13) || (Nat.leb 28 n && Nat.leb n 32)
  || Nat.eqb n 133 || Nat.eqb n 160.

Definition is_char (a c : ascii) : bool := Ascii.eqb a c.

(** A pattern is a sequence of single-character items, each taken once,
    optionally ([?]), any number of times ([*]) or at least once ([+]);
    the repetitions are greedy and give characters back when what follows
    fails, as a backtracking matcher does. *)
Inductive quant : Type := One | Opt | Star | Plus.

Definition pattern : Type := list ((ascii -> bool) * quant).

Definition one (p : ascii -> bool) (k : string -> option string)
    (s : string) : option string :=
  match s with
  | String c s' => if p c then option_map (String c) (k s') else None
  | EmptyString => None
  end.

Fixpoint many (p : ascii -> bool) (k : string -> option string)
    (s : string) : option string :=
  match s with
  | String c s' =>
      if p c then
        match many p k s' with
        | Some m => Some (String c m)
        | None => k s
        end
      else k s
  | EmptyString => k s
  end.

(** The text matched by [re] at the start of [s]. *)
Fixpoint match_here (re : pattern) : string -> option string :=
  match re with
  | [] => fun _ => Some EmptyString
  | (p, q) :: re' =>
      let k := match_here re' in
      match q with
      | One => one p k
      | Opt => fun s => match one p k s with Some m => Some m | None => k s end
      | Star => many p k
      | Plus => one p (many p k)
      end
  end.

(** [re.search]: the leftmost match. *)
Fixpoint search (re : pattern) (s : string) : option string :=
  match match_here re s with
  | Some m => Some m
  | None =>
      match s with
      | String _ s' => search re s'
      | EmptyString => None
      end
  end.

(** [r'(\d+\s*Hours?)'] *)
Definition water_pattern : pattern :=
  [ (is_digit, Plus); (is_space, Star);
    (is_char "H", One); (is_char "o", One); (is_char "u", One);
    (is_char "r", One); (is_char "s", Opt) ].

Definition is_num (c : cell) : bool :=
  match c with Num _ => true | Str _ => false end.

(** [s.str]: refused on a float column, and on an object column whose
    values that are not NaN are all numbers. *)
Definition str_accessor (s : Series) : result (list cell) :=
  match s with
  | FloatCol _ => Raise AttributeError
  | ObjCol cs =>
      let present := List.filter notna cs in
      if negb (Nat.eqb (length present) 0) && forallb is_num present
      then Raise AttributeError
      else OK cs
  end.

Definition extract_cell (re : pattern) (c : cell) : cell :=
  match c with
  | Str t => match search re t with Some m => Str m | None => NaN end
  | Num _ => NaN
  end.

(** [s.str.extract(re)] for a pattern that is one group: the frame of one
    column it returns is kept as that column. *)
Definition str_extract (re : pattern) (s : Series) : result Series :=
  let* cs := str_accessor s in OK (ObjCol (map (extract_cell re) cs)).

Definition str_cell (f : string -> string) (c : cell) : cell :=
  match c with
  | Str t => Str (f t)
  | Num _ => NaN
  end.

Definition str_map (f : string -> string) (s : Series) : result Series :=
  let* cs := str_accessor s in OK (ObjCol (map (str_cell f) cs)).

(** [t.replace(a, '')] for a single character [a]. *)
Fixpoint remove_char (a : ascii) (t : string) : string :=
  match t with
  | EmptyString => EmptyString
  | String c t' => if Ascii.eqb c a then remove_char a t' else String c (remove_char a t')
  end.

Fixpoint lstrip (t : string) : string :=
  match t with
  | EmptyString => EmptyString
  | String c t' => if is_space c then lstrip t' else t
  end.

Fixpoint rstrip (t : string) : string :=
  match t with
  | EmptyString => EmptyString
  | String c t' =>
      match rstrip t' with
      | EmptyString => if is_space c then EmptyString else String c EmptyString
      | r => String c r
      end
  end.

(** [t.strip()] *)
Definition strip (t : string) : string := rstrip (lstrip t).

(** ** Arithmetic *)

(** The integer nearest to [m / d], the even one of the two when [m / d]
    is half way between them. *)
Definition round_half_even (m d : Z) : Z :=
  let q := (m / d)%Z in
  let r := (m mod d)%Z in
  if (2 * r <? d)%Z then q
  else if (d <? 2 * r)%Z then (q + 1)%Z
  else if Z.even q then q else (q + 1)%Z.

(** The float of the integer [n] with the sign [s] (a zero keeps its
    sign); exact below 2^53. *)
Definition float_of_int (s : bool) (n : Z) : float :=
  SF2Prim (if (n =? 0)%Z then S754_zero s else S754_finite s (Z.to_pos n) 0).

(** [numpy.rint]: the nearest integer, ties to the even one, in the format
    of [x].  A finite [x] is [m * 2^e] with its sign; with [0 <= e] it is
    an integer already, otherwise [m] is rounded at the bit of weight
    [2^-e].  NaN, the infinities and the zeros are returned as they are. *)
Definition rint (x : float) : float :=
  match Prim2SF x with
  | S754_finite s m e =>
      if (e <? 0)%Z
      then float_of_int s (round_half_even (Zpos m) (2 ^ (- e)))
      else x
  | _ => x
  end.

(** [numpy.round(x, 2)]: scale by 100, round to an integer, scale back. *)
Definition round2 (x : float) : float :=
  PrimFloat.div (rint (PrimFloat.mul x 100)) 100.

Definition div_cell (cd : cell * cell) : result float :=
  match cd with
  | (Num x, Num y) => OK (PrimFloat.div x y)
  | _ => Raise TypeError
  end.

(** [a / b].  Two float columns divide to a float column; with an object
    column the division is made element by element and the result is an
    object column; text is a [TypeError]. *)
Definition truediv (a b : Series) : result Series :=
  match a, b with
  | FloatCol xs, FloatCol ys => OK (FloatCol (zip_with PrimFloat.div xs ys))
  | _, _ =>
      let* zs := mapM div_cell (combine (values a) (values b)) in
      OK (ObjCol (map Num zs))
  end.

(** [s.round(2)].  On an object column numpy asks each value for a method
    [rint], which neither a number nor text has: a [TypeError], unless the
    column has no value at all. *)
Definition round_2 (s : Series) : result Series :=
  match s with
  | FloatCol xs => OK (FloatCol (map round2 xs))
  | ObjCol [] => OK (ObjCol [])
  | ObjCol (_ :: _) => Raise TypeError
  end.

(** ** The steps of [finalize_property_data] *)

(** Step 0: drop the rows without a price or an area, then the rows whose
    area is not positive. *)
Definition step0 (df : DataFrame) : result DataFrame :=
  let* df := dropna "Price" "Area_sqft" df in
  let* area := getitem "Area_sqft" df in
  let* mask := gt_zero area in
  OK (loc mask df).

(** Step 1: the two imputation loops. *)
Definition step1 (df : DataFrame) : result DataFrame :=
  let* df := foldM impute_numeric numerical_cols df in
  foldM impute_categorical categorical_cols df.

(** Step 2: [Age_in_Years]. *)
Definition step2 (df : DataFrame) : result DataFrame :=
  let* age := getitem "Property_Age" df in
  OK (setitem "Age_in_Years" (fillna (Num (-1)%float) (map_dict age_map age)) df).

(** Step 3: [Water_Availability_Status]. *)
Definition step3 (df : DataFrame) : result DataFrame :=
  let* water := getitem "Water Availability" df in
  let* status := str_extract water_pattern water in
  let df := setitem "Water_Availability_Status"
              (fillna (Str "Not Specified") status) df in
  let* status := getitem "Water_Availability_Status" df in
  let* status := str_map (remove_char " ") status in
  let* status := str_map strip status in
  OK (setitem "Water_Availability_Status" status df).

(** Step 4: [Price_per_sqft]. *)
Definition step4 (df : DataFrame) : result DataFrame :=
  let* price := getitem "Price" df in
  let* area := getitem "Area_sqft" df in
  let* ratio := truediv price area in
  let* ratio := round_2 ratio in
  OK (setitem "Price_per_sqft" ratio df).

Definition final_cols_order : list string :=
  [ "Property_Type"; "Transaction_Type"; "Location"; "latitude"; "longitude"; "Price";
    "Area_sqft"; "Price_per_sqft"; "area_type"; "Construction_Status";
    "Age_in_Years"; "Possession_Date"; "Furnishing_Status"; "Zoning"; "Facing";
    "Overlooking"; "Pantry"; "Water_Availability_Status"; "Washrooms"; "Floor_Number";
    "Total_Floors"; "Covered_Parking"; "Open_Parking"; "Open_Sides"; "Plot_Length";
    "Plot_Breadth"; "Entrance_Width_ft"; "Road_Width_m" ].

Definition existing_final_cols (df : DataFrame) : list string :=
  List.filter (fun col => has_col col df) final_cols_order.

(** Step 5: drop the two source columns, keep the known columns in order. *)
Definition step5 (df : DataFrame) : result DataFrame :=
  let df := drop ["Property_Age"; "Water Availability"] df in
  getitems (existing_final_cols df) df.

(** From the frame that was read to [df_final]. *)
Definition transform (df : DataFrame) : result DataFrame :=
  let* df := step0 df in
  let* df := step1 df in
  let* df := step2 df in
  let* df := step3 df in
  let* df := step4 df in
  step5 df.

(** ** Files and console *)

(** A file is the frame its CSV text stands for, or cannot be opened for
    reading (no permission, a directory). *)
Inductive file : Type :=
| CsvFile (df : DataFrame)
| Unreadable.

(** The world of the script: the files, the paths that can be written (a
    path in a directory that is not there, or without permission, cannot),
    whether the package [tabulate], which [to_markdown] imports, is
    installed, and the console.  Writing to the console is taken to
    succeed. *)
Record world : Type := {
  files : gmap string file;
  writable : string -> bool;
  tabulate : bool;
  stdout : list string
}.

Definition print (msg : string) (w : world) : world :=
  {| files := files w; writable := writable w; tabulate := tabulate w;
     stdout := stdout w ++ [msg] |}.

(** [pd.read_csv(path)] *)
Definition read_csv (path : string) (w : world) : result DataFrame :=
  match files w !! path with
  | None => Raise (FileNotFoundError path)
  | Some Unreadable => Raise (OSError path)
  | Some (CsvFile df) => OK df
  end.

(** [df.to_csv(path, index=False)]: an [OSError] when the path cannot be
    written. *)
Definition to_csv (df : DataFrame) (path : string) (w : world) : result world :=
  if writable w path then
    OK {| files := <[path := CsvFile df]> (files w); writable := writable w;
          tabulate := tabulate w; stdout := stdout w |}
  else Raise (OSError path).

(** [os.path.exists(path)] *)
Definition os_path_exists (path : string) (w : world) : bool :=
  match files w !! path with Some _ => true | None => false end.

(** Run a step; an exception leaves the function with the world as it is. *)
Definition attempt {A} (r : result A) (w : world)
    (k : A -> result unit * world) : result unit * world :=
  match r with
  | OK a => k a
  | Raise e => (Raise e, w)
  end.

(** The function of the script.  Of the two dumps of [df_final] that end
    it, the text is left out of the console: [info()] only prints, and
    [head().to_markdown()] prints when [tabulate] is installed and is an
    [ImportError] otherwise, after the file has been written. *)
Definition finalize_property_data (input_csv_path output_csv_path : string)
    (w : world) : result unit * world :=
  let w := print ("Loading cleaned data from '" ++ input_csv_path ++ "'...") w in
  match read_csv input_csv_path w with
  | Raise (FileNotFoundError _) =>
      (OK tt, print ("Error: The file '" ++ input_csv_path
                     ++ "' was not found. Please check the path.") w)
  | Raise e => (Raise e, w)
  | OK df =>
      let initial_rows := len df in
      attempt (step0 df) w (fun df =>
      let w := print ("Step 0: Removed " ++ pretty (initial_rows - len df)
                      ++ " rows with missing Price or Area.") w in
      let w := print "Step 1: Imputing remaining missing values..." w in
      attempt (step1 df) w (fun df =>
      let w := print "Step 2: Converting 'Property_Age' to a numeric feature 'Age_in_Years'..." w in
      attempt (step2 df) w (fun df =>
      let w := print "Step 3: Parsing 'Water Availability' into a clean status column..." w in
      attempt (step3 df) w (fun df =>
      let w := print "Step 4: Creating 'Price_per_sqft' feature..." w in
      attempt (step4 df) w (fun df =>
      let w := print "Step 5: Finalizing the dataframe..." w in
      attempt (step5 df) w (fun df_final =>
      let w := print ("Saving analysis-ready data to '" ++ output_csv_path ++ "'...") w in
      attempt (to_csv df_final output_csv_path w) w (fun w =>
      let w := print (String "010" "--- Final Processing Complete! ---") w in
      let w := print ("File saved at: " ++ output_csv_path) w in
      let w := print (String "010" "--- Info of the Final DataFrame ---") w in
      let w := print (String "010" "--- Sample of the Final, Analysis-Ready Data ---") w in
      if tabulate w then (OK tt, w) else (Raise ImportError, w))))))))
  end.

(** The script run as a program; [sep] is the separator [os.path.join]
    puts between the directory and the file name. *)
Definition base_dir : string :=
  "C:\Users\Asus\OneDrive\Desktop\100 GAJ ASSIGNMENTS\Task-5\Property-Prices".

Definition INPUT_FILE (sep : string) : string :=
  base_dir ++ sep ++ "fully_cleaned_property_data.csv".

Definition OUTPUT_FILE (sep : string) : string :=
  base_dir ++ sep ++ "final_analysis_ready_data.csv".

Definition main (sep : string) (w : world) : result unit * world :=
  if os_path_exists (INPUT_FILE sep) w then
    finalize_property_data (INPUT_FILE sep) (OUTPUT_FILE sep) w
  else
    let w := print ("ERROR: The input file was not found at the path: "
                    ++ INPUT_FILE sep) w in
    let w := print "Please make sure the file from the first script exists and the path is correct." w in
    (OK tt, w).

(** ** Notions used in the statements *)

(** A number greater than 0. *)
Definition positive (c : cell) : bool :=
  match c with
  | Num x => PrimFloat.ltb 0 x
  | Str _ => false
  end.

(** The mask of [dropna] on the two required columns. *)
Definition both_present (sp sa : Series) : list bool :=
  zip_with andb (map notna (values sp)) (map notna (values sa)).

(** The rows that step 0 keeps, as pairs of a price and an area. *)
Definition keep (row : cell * cell) : bool :=
  let '(p, a) := row in notna p && notna a && positive a.

(** The common shape of the two loop bodies of step 1: rewrite one column
    when it is there. *)
Definition update_col (g : Series -> result Series) (df : DataFrame)
    (col : string) : result DataFrame :=
  match get_col col df with
  | Some s => let* s' := g s in OK (setitem col s' df)
  | None => OK df
  end.

Definition numeric_fill (s : Series) : result Series :=
  let* median_val := median s in OK (fillna (Num median_val) s).

Definition categorical_fill (s : Series) : result Series :=
  OK (fillna (Str "Not Specified") s).

(** The table of the specification: the number listed for each age band,
    and -1 for "Not Specified" and for anything else. *)
Definition age_in_years (c : cell) : float :=
  match c with
  | Str k =>
      if String.eqb "New Construction" k then 0%float
      else if String.eqb "Less than 5 years old" k then 2.5%float
      else if String.eqb "5 to 10 years old" k then 7.5%float
      else if String.eqb "10 to 15 years old" k then 12.5%float
      else if String.eqb "15 to 20 years old" k then 17.5%float
      else if String.eqb "Above 20 years old" k then 25%float
      else (-1)%float
  | Num _ => (-1)%float
  end.

Definition age_values : list float :=
  [0; 2.5; 7.5; 12.5; 17.5; 25; -1]%float.

(** What step 3 makes of one value of [Water Availability], operation by
    operation. *)
Definition water_status (c : cell) : cell :=
  str_cell strip
    (str_cell (remove_char " ")
       (fill_cell (Str "Not Specified") (extract_cell water_pattern c))).

Fixpoint has_char (a : ascii) (t : string) : bool :=
  match t with
  | EmptyString => false
  | String c t' => Ascii.eqb c a || has_char a t'
  end.

(** The status of a value of [Water Availability]: the match without its
    space characters, and the fill value without its space when there is
    no match. *)
Definition status_of (c : cell) : string :=
  match c with
  | Str t =>
      match search water_pattern t with
      | Some m => remove_char " " m
      | None => "NotSpecified"
      end
  | Num _ => "NotSpecified"
  end.

Fixpoint all_chars (p : ascii -> bool) (t : string) : bool :=
  match t with
  | EmptyString => true
  | String c t' => p c && all_chars p t'
  end.

Definition no_whitespace (t : string) : bool :=
  all_chars (fun c => negb (is_space c)) t.

(** The white space of the matched text, if any, is made of space
    characters (U+0020). *)
Definition plain_spaces (c : cell) : bool :=
  match c with
  | Str t =>
      match search water_pattern t with
      | Some m => all_chars (fun c => negb (is_space c) || Ascii.eqb c " ") m
      | None => true
      end
  | Num _ => true
  end.

Definition in_final (n : string) : bool := existsb (String.eqb n) final_cols_order.

(** The columns that steps 2 to 4 add. *)
Definition derived_cols : list string :=
  [ "Age_in_Years"; "Water_Availability_Status"; "Price_per_sqft" ].

Definition not_found_message (path : string) : string :=
  "Error: The file '" ++ path ++ "' was not found. Please check the path.".

(** Text or NaN: the values of an object column as it is read. *)
Definition textual (c : cell) : Prop := isna c = true \/ is_num c = false.

(** The columns the script reads without a test, with values it can use;
    a numeric column that is there holds numbers. *)
Definition required_present (df : DataFrame) : Prop :=
  (exists ps, get_col "Price" df = Some (FloatCol ps)) /\
  (exists xs, get_col "Area_sqft" df = Some (FloatCol xs)) /\
  has_col "Property_Age" df = true /\
  (exists ws, get_col "Water Availability" df = Some (ObjCol ws) /\
              Forall textual ws) /\
  (forall col s, In col numerical_cols -> get_col col df = Some s ->
                 exists xs, s = FloatCol xs).

(** The rows of a column that step 0 keeps, given the Price and the
    Area_sqft columns of the table. *)
Definition kept_rows (sp sa s : Series) : Series :=
  take (map positive (select (both_present sp sa) (values sa)))
    (take (both_present sp sa) s).

(** Every column has [n] rows. *)
Definition rectangular (n : nat) (df : DataFrame) : Prop :=
  Forall (fun col => length (values (snd col)) = n) df.

(** A digit, more digits, white space, and "Hour" or "Hours". *)
Definition hours_text (m : string) : Prop :=
  exists d ds ws tail,
    m = String d (ds ++ ws ++ tail) /\
    is_digit d = true /\ all_chars is_digit ds = true /\
    all_chars is_space ws = true /\
    (tail = "Hour" \/ tail = "Hours").

(** The text has a piece of that form somewhere. *)
Definition mentions_hours (t : string) : Prop :=
  exists pre m post, t = pre ++ m ++ post /\ hours_text m.

(** How the status [v] of a row depends on its value [c] of
    [Water Availability]. *)
Definition status_reads (c v : cell) : Prop :=
  (exists t pre m post,
     c = Str t /\ t = pre ++ m ++ post /\ hours_text m /\
     v = Str (remove_char " " m)) \/
  ((forall t, c = Str t -> ~ mentions_hours t) /\ v = Str "NotSpecified").

(** [n] is the integer nearest to [m / d], the even one of the two when
    [m / d] is half way between them. *)
Definition nearest_even (m d n : Z) : Prop :=
  (2 * Z.abs (n * d - m) <= d)%Z /\
  ((2 * Z.abs (n * d - m) = d)%Z -> Z.even n = true).

(** [r] is [q] rounded to 2 decimals the way numpy does it: the binary64
    product of [q] by 100, which is [m * 2^e] with its sign, is replaced
    by the nearest integer [n] (ties to even) and [n] is divided by 100 in
    binary64; a product that is an integer, a zero, infinite or NaN is
    divided as it is. *)
Definition numpy_rounded (q r : float) : Prop :=
  match Prim2SF (PrimFloat.mul q 100) with
  | S754_finite s m e =>
      if (e <? 0)%Z
      then exists n, nearest_even (Zpos m) (2 ^ (- e)) n /\
                     r = PrimFloat.div (float_of_int s n) 100
      else r = PrimFloat.div (PrimFloat.mul q 100) 100
  | _ => r = PrimFloat.div (PrimFloat.mul q 100) 100
  end.

(** [q] rounded to 2 decimals as a decimal number: with [q] equal to
    [m * 2^e], the integer nearest to [100 * m * 2^e] (ties to even)
    divided by 100 in binary64; a [q] that is an integer, a zero, infinite
    or NaN is its own rounding. *)
Definition decimal_round2 (q : float) : float :=
  match Prim2SF q with
  | S754_finite s m e =>
      if (e <? 0)%Z
      then PrimFloat.div
             (float_of_int s (round_half_even (100 * Zpos m) (2 ^ (- e)))) 100
      else q
  | _ => q
  end.

(** ** Sample tables *)

Definition tab : string := String "009" EmptyString.

(** Five listings: the second has no area to speak of, the third no price,
    the fourth no area. *)
Definition listings : DataFrame :=
  [ ("Location", ObjCol [Str "Sector 21"; Str "Sector 9"; NaN; Str "Sector 4"; Str "Sector 7"]);
    ("Price", FloatCol [1000000; 500000; nan; 750000; 300000]%float);
    ("Area_sqft", FloatCol [500; 0; 300; nan; 600]%float);
    ("Property_Age",
      ObjCol [Str "5 to 10 years old"; Str "New Construction"; NaN; NaN; NaN]);
    ("Washrooms", FloatCol [nan; 1; 3; 4; 2]%float);
    ("Facing", ObjCol [NaN; Str "East"; NaN; Str "West"; Str "North"]);
    ("Remarks", ObjCol [NaN; NaN; NaN; NaN; Str "corner plot"]);
    ("Water Availability",
      ObjCol [Str "Available 12 Hours a day"; NaN; NaN; Str "24 Hours"; Str "On demand"]) ].

Definition listings_final : DataFrame :=
  [ ("Location", ObjCol [Str "Sector 21"; Str "Sector 7"]);
    ("Price", FloatCol [1000000; 300000]%float);
    ("Area_sqft", FloatCol [500; 600]%float);
    ("Price_per_sqft", FloatCol [2000; 500]%float);
    ("Age_in_Years", FloatCol [7.5; -1]%float);
    ("Facing", ObjCol [Str "Not Specified"; Str "North"]);
    ("Water_Availability_Status", ObjCol [Str "12Hours"; Str "NotSpecified"]);
    ("Washrooms", FloatCol [2; 2]%float) ].

(** Two listings whose number of washrooms is unknown. *)
Definition all_missing_washrooms : DataFrame :=
  [ ("Price", FloatCol [900000; 450000]%float);
    ("Area_sqft", FloatCol [600; 300]%float);
    ("Property_Age", ObjCol [Str "New Construction"; NaN]);
    ("Washrooms", FloatCol [nan; nan]%float);
    ("Water Availability", ObjCol [Str "24 Hours"; NaN]) ].

(** Two listings: one without hours of water, one with a tab before
    "Hours". *)
Definition water_samples : DataFrame :=
  [ ("Price", FloatCol [900000; 450000]%float);
    ("Area_sqft", FloatCol [600; 300]%float);
    ("Property_Age", ObjCol [Str "New Construction"; NaN]);
    ("Water Availability", ObjCol [Str "No supply"; Str ("24" ++ tab ++ "Hours")]) ].

(** One listing with every column the script knows. *)
Definition complete_listing : DataFrame :=
  [ ("Property_Type", ObjCol [Str "Office Space"]);
    ("Transaction_Type", ObjCol [Str "Resale"]);
    ("Location", ObjCol [Str "Sector 21"]);
    ("latitude", FloatCol [28.5]%float);
    ("longitude", FloatCol [77.25]%float);
    ("Price", FloatCol [1000000]%float);
    ("Area_sqft", FloatCol [500]%float);
    ("area_type", ObjCol [Str "Carpet"]);
    ("Construction_Status", ObjCol [Str "Ready to move"]);
    ("Property_Age", ObjCol [Str "5 to 10 years old"]);
    ("Possession_Date", ObjCol [Str "Immediate"]);
    ("Furnishing_Status", ObjCol [Str "Furnished"]);
    ("Zoning", ObjCol [Str "Commercial"]);
    ("Facing", ObjCol [Str "East"]);
    ("Overlooking", ObjCol [Str "Main Road"]);
    ("Pantry", ObjCol [Str "Dry"]);
    ("Water Availability", ObjCol [Str "Available 12 Hours a day"]);
    ("Washrooms", FloatCol [2]%float);
    ("Floor_Number", FloatCol [3]%float);
    ("Total_Floors", FloatCol [10]%float);
    ("Covered_Parking", FloatCol [1]%float);
    ("Open_Parking", FloatCol [0]%float);
    ("Open_Sides", FloatCol [2]%float);
    ("Plot_Length", FloatCol [25]%float);
    ("Plot_Breadth", FloatCol [20]%float);
    ("Entrance_Width_ft", FloatCol [6]%float);
    ("Road_Width_m", FloatCol [12]%float) ].

(** Three listings whose price per square foot is 1e307, 16.055 and a
    third of 1000 before it is rounded. *)
Definition awkward_prices : DataFrame :=
  [ ("Price", FloatCol [0x1.c7b1f3cac7433p+1019; 3211; 1000]%float);
    ("Area_sqft", FloatCol [1; 200; 3]%float);
    ("Property_Age", ObjCol [Str "New Construction"; NaN; NaN]);
    ("Water Availability", ObjCol [Str "24 Hours"; NaN; NaN]) ].

Definition awkward_prices_final : DataFrame :=
  [ ("Price", FloatCol [0x1.c7b1f3cac7433p+1019; 3211; 1000]%float);
    ("Area_sqft", FloatCol [1; 200; 3]%float);
    ("Price_per_sqft",
      FloatCol [infinity; 0x1.00f5c28f5c28fp+4; 0x1.4d547ae147ae1p+8]%float);
    ("Age_in_Years", FloatCol [0; -1; -1]%float);
    ("Water_Availability_Status",
      ObjCol [Str "24Hours"; Str "NotSpecified"; Str "NotSpecified"]) ].

(** A listing without a price column. *)
Definition no_price : DataFrame :=
  [ ("Area_sqft", FloatCol [500]%float);
    ("Property_Age", ObjCol [Str "New Construction"]);
    ("Water Availability", ObjCol [Str "24 Hours"]) ].

(** A file system whose one file cannot be read. *)
Definition locked_world : world :=
  {| files := {[ "locked.csv" := Unreadable ]}; writable := fun _ => true;
     tabulate := true; stdout := [] |}.

(** A file system with the sample of listings as a readable file. *)
Definition listings_world : world :=
  {| files := {[ "cleaned.csv" := CsvFile listings ]};
     writable := fun path => negb (String.eqb path "archive/final.csv");
     tabulate := true; stdout := ["ready"] |}.

(** The same file system on a machine without [tabulate]. *)
Definition bare_world : world :=
  {| files := {[ "cleaned.csv" := CsvFile listings ]}; writable := fun _ => true;
     tabulate := false; stdout := [] |}.

(** A file system whose one file is a table without a price column. *)
Definition no_price_world : world :=
  {| files := {[ "in.csv" := CsvFile no_price ]}; writable := fun _ => true;
     tabulate := true; stdout := [] |}.

(** The sample of listings where the program looks for its input. *)
Definition desktop_world : world :=
  {| files := {[ INPUT_FILE "\" := CsvFile listings ]}; writable := fun _ => true;
     tabulate := true; stdout := [] |}.

(** The line that step 0 prints for [n] rows removed. *)
Definition removed_message (n : nat) : string :=
  "Step 0: Removed " ++ pretty n ++ " rows with missing Price or Area.".

(** Listings none of which can be used. *)
Definition unusable_listings : DataFrame :=
  [ ("Price", FloatCol [nan; 500000]%float);
    ("Area_sqft", FloatCol [300; 0]%float);
    ("Property_Age", ObjCol [Str "New Construction"; NaN]);
    ("Washrooms", FloatCol [2; nan]%float);
    ("Water Availability", ObjCol [Str "24 Hours"; NaN]) ].

(** Listings without a word on water: the column is read as numbers. *)
Definition no_water_listings : DataFrame :=
  [ ("Price", FloatCol [900000; 450000]%float);
    ("Area_sqft", FloatCol [600; 300]%float);
    ("Property_Age", ObjCol [Str "New Construction"; NaN]);
    ("Water Availability", FloatCol [nan; nan]%float) ].

(** Listings without a column on water. *)
Definition no_water_column : DataFrame :=
  [ ("Price", FloatCol [900000; 450000]%float);
    ("Area_sqft", FloatCol [600; 300]%float);
    ("Property_Age", ObjCol [Str "New Construction"; NaN]) ].

(** Listings with an area that is not a number. *)
Definition worded_area : DataFrame :=
  [ ("Price", FloatCol [900000; 450000]%float);
    ("Area_sqft", ObjCol [NaN; Str "1,200"]);
    ("Property_Age", ObjCol [Str "New Construction"; NaN]);
    ("Water Availability", ObjCol [Str "24 Hours"; NaN]) ].

(** * Properties *)

(** ** The result monad *)

Lemma bind_OK {A B} (r : result A) (k : A -> result B) (b : B) :
  bind r k = OK b -> exists a, r = OK a /\ k a = OK b.
Proof. destruct r as [a|e]; simpl; intros H; [eauto | discriminate]. Qed.

Ltac inv_bind H :=
  let a := fresh "v" in
  let Ha := fresh "E" in
  apply bind_OK in H; destruct H as (a & Ha & H).

Lemma mapM_OK_length {A B} (f : A -> result B) l bs :
  mapM f l = OK bs -> length bs = length l.
Proof.
  revert bs; induction l as [|a l IH]; simpl; intros bs H.
  - injection H as <-. reflexivity.
  - inv_bind H. inv_bind H. injection H as <-. simpl. f_equal. eauto.
Qed.

(** ** Boolean indexing *)

Section Select.
Context {A B : Type}.

Lemma select_map (f : A -> B) m xs :
  select m (map f xs) = map f (select m xs).
Proof.
  revert xs; induction m as [|b m IH]; intros [|x xs]; simpl; trivial.
  destruct b; simpl; rewrite IH; reflexivity.
Qed.

Lemma select_combine m (xs : list A) (ys : list B) :
  combine (select m xs) (select m ys) = select m (combine xs ys).
Proof.
  revert xs ys; induction m as [|b m IH]; intros [|x xs] [|y ys]; simpl; trivial.
  - destruct b; simpl; [|destruct (select m xs)]; reflexivity.
  - destruct b; simpl; rewrite IH; reflexivity.
Qed.

Lemma select_Forall (P : A -> Prop) m xs :
  Forall P xs -> Forall P (select m xs).
Proof.
  intros H; revert m; induction H as [|x xs Hx _ IH]; intros [|b m]; simpl;
    try constructor.
  destruct b; [constructor|]; auto.
Qed.

(** A mask computed from the entries themselves is a filter. *)
Lemma select_own_mask (f : A -> bool) xs :
  select (map f xs) xs = List.filter f xs.
Proof.
  induction xs as [|x xs IH]; simpl; trivial.
  destruct (f x); rewrite IH; reflexivity.
Qed.

Lemma select_both_masks (f : A -> bool) (g : B -> bool) xs ys :
  select (zip_with andb (map f xs) (map g ys)) (combine xs ys)
  = List.filter (fun '(x, y) => f x && g y) (combine xs ys).
Proof.
  revert ys; induction xs as [|x xs IH]; intros [|y ys]; simpl; trivial.
  destruct (f x && g y); rewrite IH; reflexivity.
Qed.

Lemma select_right_mask (g : B -> bool) (xs : list A) ys :
  select (map g ys) (combine xs ys)
  = List.filter (fun '(_, y) => g y) (combine xs ys).
Proof.
  revert ys; induction xs as [|x xs IH]; intros [|y ys]; simpl; trivial.
  destruct (g y); rewrite IH; reflexivity.
Qed.

Lemma select_left_holds (f : A -> bool) (m : list bool) xs :
  Forall (fun x => f x = true) (select (zip_with andb (map f xs) m) xs).
Proof.
  revert m; induction xs as [|x xs IH]; intros [|b m]; simpl; try constructor.
  destruct (f x) eqn:Hx; simpl; [destruct b; [constructor|]|]; auto.
Qed.

Lemma select_right_holds (f : A -> bool) (m : list bool) xs :
  Forall (fun x => f x = true) (select (zip_with andb m (map f xs)) xs).
Proof.
  revert m; induction xs as [|x xs IH]; intros [|b m]; simpl; try constructor.
  destruct b, (f x) eqn:Hx; simpl; [constructor|..]; auto.
Qed.

Lemma select_own_holds (f : A -> bool) xs :
  Forall (fun x => f x = true) (select (map f xs) xs).
Proof.
  rewrite select_own_mask. apply List.Forall_forall. intros x Hx.
  apply List.filter_In in Hx. tauto.
Qed.
End Select.

Lemma filter_filter {A} (p q : A -> bool) l :
  List.filter q (List.filter p l) = List.filter (fun x => p x && q x) l.
Proof.
  induction l as [|x l IH]; simpl; trivial.
  destruct (p x); simpl; [destruct (q x)|]; rewrite IH; reflexivity.
Qed.

Lemma filter_ext_eq {A} (p q : A -> bool) l :
  (forall x, p x = q x) -> List.filter p l = List.filter q l.
Proof.
  intros H; induction l as [|x l IH]; simpl; trivial.
  rewrite H, IH; reflexivity.
Qed.

Lemma values_take m s : values (take m s) = select m (values s).
Proof. destruct s; simpl; [rewrite select_map|]; reflexivity. Qed.

(** ** Columns of a frame *)

Lemma get_col_setitem_eq n s df : get_col n (setitem n s df) = Some s.
Proof.
  induction df as [|[m s'] df IH]; simpl.
  - rewrite String.eqb_refl; reflexivity.
  - destruct (String.eqb m n) eqn:E; simpl; rewrite E; auto.
Qed.

Lemma get_col_setitem_ne n m s df :
  n <> m -> get_col m (setitem n s df) = get_col m df.
Proof.
  intros Hne; induction df as [|[k s'] df IH]; simpl.
  - destruct (String.eqb n m) eqn:E; trivial.
    apply String.eqb_eq in E; contradiction.
  - destruct (String.eqb k n) eqn:E; simpl.
    + apply String.eqb_eq in E; subst k.
      destruct (String.eqb n m) eqn:E'; trivial.
      apply String.eqb_eq in E'; contradiction.
    + rewrite IH; reflexivity.
Qed.

Lemma get_col_loc n mask df :
  get_col n (loc mask df) = option_map (take mask) (get_col n df).
Proof.
  induction df as [|[m s] df IH]; simpl; trivial.
  destruct (String.eqb m n); simpl; auto.
Qed.

Lemma get_col_drop n names df :
  get_col n (drop names df)
  = if existsb (String.eqb n) names then None else get_col n df.
Proof.
  induction df as [|[m s] df IH]; simpl.
  - destruct (existsb _ names); reflexivity.
  - destruct (String.eqb m n) eqn:E.
    + apply String.eqb_eq in E; subst m.
      destruct (existsb (String.eqb n) names) eqn:X; simpl; trivial.
      rewrite String.eqb_refl; reflexivity.
    + destruct (existsb (String.eqb m) names); simpl; rewrite ?E; exact IH.
Qed.

Lemma has_col_setitem n m s df :
  has_col m (setitem n s df) = String.eqb n m || has_col m df.
Proof.
  unfold has_col. destruct (String.eqb n m) eqn:E; simpl.
  - apply String.eqb_eq in E; subst m. rewrite get_col_setitem_eq; reflexivity.
  - rewrite get_col_setitem_ne; trivial.
    intros ->. rewrite String.eqb_refl in E; discriminate.
Qed.

Lemma has_col_loc n mask df : has_col n (loc mask df) = has_col n df.
Proof. unfold has_col. rewrite get_col_loc. destruct (get_col n df); reflexivity. Qed.

Lemma getitem_OK n df s : getitem n df = OK s -> get_col n df = Some s.
Proof. unfold getitem. destruct (get_col n df); intros H; inversion H; reflexivity. Qed.

Lemma getitems_inv names df out :
  getitems names df = OK out ->
  columns out = names /\
  forall n, get_col n out
            = if existsb (String.eqb n) names then get_col n df else None.
Proof.
  revert out; induction names as [|a names IH]; simpl; intros out H.
  - injection H as <-. split; reflexivity.
  - inv_bind H. inv_bind H. injection H as <-.
    apply getitem_OK in E. destruct (IH _ E0) as [Hc Hg]. split.
    + simpl. f_equal. exact Hc.
    + intros n. simpl. rewrite (String.eqb_sym n a).
      destruct (String.eqb a n) eqn:Ea; simpl; [|apply Hg].
      apply String.eqb_eq in Ea; subst n. symmetry; exact E.
Qed.

Lemma getitems_total names df :
  Forall (fun n => has_col n df = true) names ->
  exists out, getitems names df = OK out.
Proof.
  induction 1 as [|a names Ha _ [out IH]]; simpl; [eauto|].
  unfold getitem. unfold has_col in Ha.
  destruct (get_col a df); [|discriminate]. simpl. rewrite IH. simpl. eauto.
Qed.

(** ** Step 0 *)

Lemma gt_zero_cells cs mask :
  mapM gt_zero_cell cs = OK mask ->
  mask = map positive cs /\ Forall (fun c => is_num c = true) cs.
Proof.
  revert mask; induction cs as [|c cs IH]; simpl; intros mask H.
  - injection H as <-. split; constructor.
  - inv_bind H. inv_bind H. injection H as <-.
    destruct (IH _ E0) as [-> Hn].
    destruct c; simpl in E; [|discriminate]. injection E as <-.
    split; [reflexivity|constructor; auto].
Qed.

Lemma step0_inv df df0 :
  step0 df = OK df0 ->
  exists sp sa,
    get_col "Price" df = Some sp /\ get_col "Area_sqft" df = Some sa /\
    Forall (fun c => is_num c = true) (select (both_present sp sa) (values sa)) /\
    df0 = loc (map positive (select (both_present sp sa) (values sa)))
              (loc (both_present sp sa) df).
Proof.
  unfold step0, dropna. intros H. inv_bind H.
  destruct (get_col "Price" df) as [sp|] eqn:Hp; [|discriminate].
  destruct (get_col "Area_sqft" df) as [sa|] eqn:Ha; [|discriminate].
  injection E as <-. inv_bind H. inv_bind H. injection H as <-.
  apply getitem_OK in E. rewrite get_col_loc, Ha in E. simpl in E.
  injection E as <-. unfold gt_zero in E0. rewrite values_take in E0.
  apply gt_zero_cells in E0. destruct E0 as [-> Hn].
  exists sp, sa. repeat split; trivial.
Qed.

Lemma step0_rows df df0 :
  step0 df = OK df0 ->
  exists sp sa p0 a0,
    get_col "Price" df = Some sp /\ get_col "Area_sqft" df = Some sa /\
    get_col "Price" df0 = Some p0 /\ get_col "Area_sqft" df0 = Some a0 /\
    combine (values p0) (values a0)
      = List.filter keep (combine (values sp) (values sa)) /\
    Forall (fun c => notna c = true) (values p0) /\
    Forall (fun c => notna c = true /\ positive c = true) (values a0).
Proof.
  intros H. destruct (step0_inv _ _ H) as (sp & sa & Hp & Ha & Hn & ->).
  set (m1 := both_present sp sa) in *.
  set (m2 := map positive (select m1 (values sa))).
  exists sp, sa, (take m2 (take m1 sp)), (take m2 (take m1 sa)).
  rewrite !get_col_loc, Hp, Ha. simpl. repeat split; trivial.
  - rewrite !values_take, !select_combine. unfold m2.
    rewrite <- select_combine, select_right_mask, select_combine.
    unfold m1, both_present. rewrite select_both_masks, filter_filter.
    apply filter_ext_eq. intros [p a]. reflexivity.
  - rewrite !values_take. apply select_Forall. apply select_left_holds.
  - rewrite !values_take. apply Forall_and; split.
    + apply select_Forall. apply select_right_holds.
    + apply select_own_holds.
Qed.

(** ** Step 1: the imputation loops *)

Lemma impute_numeric_update df col :
  impute_numeric df col = update_col numeric_fill df col.
Proof.
  unfold impute_numeric, update_col, numeric_fill.
  destruct (get_col col df) as [s|]; trivial. destruct (median s); reflexivity.
Qed.

Lemma impute_categorical_update df col :
  impute_categorical df col = update_col categorical_fill df col.
Proof.
  unfold impute_categorical, update_col, categorical_fill.
  destruct (get_col col df); reflexivity.
Qed.

Lemma foldM_ext {A B} (f g : B -> A -> result B) l b :
  (forall b a, f b a = g b a) -> foldM f l b = foldM g l b.
Proof.
  intros H; revert b; induction l as [|a l IH]; intros b; simpl; trivial.
  rewrite H. destruct (g b a); simpl; auto.
Qed.

Lemma update_col_inv g df col df' :
  update_col g df col = OK df' ->
  (forall n, n <> col -> get_col n df' = get_col n df) /\
  (forall n, has_col n df' = has_col n df) /\
  match get_col col df with
  | Some s => exists s', g s = OK s' /\ get_col col df' = Some s'
  | None => get_col col df' = None
  end.
Proof.
  unfold update_col. destruct (get_col col df) as [s|] eqn:Hc; intros H.
  - inv_bind H. injection H as <-. repeat split.
    + intros n Hn. apply get_col_setitem_ne. congruence.
    + intros n. rewrite has_col_setitem.
      destruct (String.eqb col n) eqn:Hn; trivial.
      apply String.eqb_eq in Hn; subst n. unfold has_col. rewrite Hc; reflexivity.
    + exists v. split; trivial. apply get_col_setitem_eq.
  - injection H as <-. repeat split; trivial.
Qed.

Lemma foldM_update_col g cols :
  List.NoDup cols -> forall df df',
  foldM (update_col g) cols df = OK df' ->
  (forall n, ~ In n cols -> get_col n df' = get_col n df) /\
  (forall n, has_col n df' = has_col n df) /\
  (forall n, In n cols ->
     match get_col n df with
     | Some s => exists s', g s = OK s' /\ get_col n df' = Some s'
     | None => get_col n df' = None
     end).
Proof.
  induction 1 as [|c cols Hc Hnd IH]; simpl; intros df df' H.
  - injection H as <-. repeat split; trivial. contradiction.
  - inv_bind H. destruct (update_col_inv _ _ _ _ E) as (Hne & Hhas & Hat).
    destruct (IH _ _ H) as (Hout & Hhas' & Hin). repeat split.
    + intros n Hn. rewrite Hout by tauto. apply Hne. intros ->. tauto.
    + intros n. rewrite Hhas'. apply Hhas.
    + intros n [<-|Hn].
      * rewrite (Hout c Hc). exact Hat.
      * specialize (Hin n Hn). rewrite Hne in Hin; trivial.
        intros ->. contradiction.
Qed.

Lemma NoDup_numerical_cols : List.NoDup numerical_cols.
Proof. unfold numerical_cols. repeat constructor; simpl; intuition discriminate. Qed.

Lemma NoDup_categorical_cols : List.NoDup categorical_cols.
Proof. unfold categorical_cols. repeat constructor; simpl; intuition discriminate. Qed.

Lemma step1_inv df df1 :
  step1 df = OK df1 ->
  (forall n, has_col n df1 = has_col n df) /\
  (forall n, ~ In n numerical_cols -> ~ In n categorical_cols ->
             get_col n df1 = get_col n df) /\
  (forall n s, In n numerical_cols -> get_col n df = Some s ->
     exists s', numeric_fill s = OK s' /\ get_col n df1 = Some s') /\
  (forall n s, In n categorical_cols -> get_col n df = Some s ->
     get_col n df1 = Some (fillna (Str "Not Specified") s)).
Proof.
  unfold step1. intros H. inv_bind H.
  rewrite (foldM_ext _ _ _ _ impute_numeric_update) in E.
  rewrite (foldM_ext _ _ _ _ impute_categorical_update) in H.
  destruct (foldM_update_col _ _ NoDup_numerical_cols _ _ E) as (N1 & N2 & N3).
  destruct (foldM_update_col _ _ NoDup_categorical_cols _ _ H) as (C1 & C2 & C3).
  repeat split.
  - intros n. rewrite C2. apply N2.
  - intros n Hn Hc. rewrite C1, N1; trivial.
  - intros n s Hn Hs. specialize (N3 n Hn). rewrite Hs in N3.
    destruct N3 as (s' & Hg & Hs'). exists s'. split; trivial.
    rewrite C1; trivial.
    unfold numerical_cols in Hn; unfold categorical_cols; simpl in *.
    intuition (subst; discriminate).
  - intros n s Hn Hs. specialize (C3 n Hn).
    rewrite N1, Hs in C3.
    + destruct C3 as (s' & Hg & Hs'). injection Hg as <-. exact Hs'.
    + unfold categorical_cols in Hn; unfold numerical_cols; simpl in *.
      intuition (subst; discriminate).
Qed.

(** ** Steps 2 to 5 *)

Lemma str_accessor_OK s cs : str_accessor s = OK cs -> s = ObjCol cs.
Proof.
  destruct s as [xs|cs']; simpl; [discriminate|].
  destruct (_ && _); intros H; inversion H; reflexivity.
Qed.

Lemma step2_inv df df' :
  step2 df = OK df' ->
  exists age, get_col "Property_Age" df = Some age /\
    df' = setitem "Age_in_Years"
            (fillna (Num (-1)%float) (map_dict age_map age)) df.
Proof.
  unfold step2. intros H. inv_bind H. injection H as <-.
  apply getitem_OK in E. eauto.
Qed.

Lemma step3_inv df df' :
  step3 df = OK df' ->
  exists cs,
    get_col "Water Availability" df = Some (ObjCol cs) /\
    (forall n, n <> "Water_Availability_Status" -> get_col n df' = get_col n df) /\
    (forall n, has_col n df'
               = String.eqb "Water_Availability_Status" n || has_col n df) /\
    get_col "Water_Availability_Status" df' = Some (ObjCol (map water_status cs)).
Proof.
  unfold step3. intros H. inv_bind H. apply getitem_OK in E.
  unfold str_extract in H. inv_bind H. inv_bind E0. injection E0 as <-.
  apply str_accessor_OK in E1. subst v.
  inv_bind H. apply getitem_OK in E0. rewrite get_col_setitem_eq in E0.
  injection E0 as <-. inv_bind H. inv_bind H.
  unfold str_map in E0, E1. inv_bind E0. inv_bind E1.
  injection E0 as <-. injection E1 as <-.
  apply str_accessor_OK in E2. simpl in E2. injection E2 as <-.
  apply str_accessor_OK in E3. injection E3 as <-.
  injection H as <-. exists v1.
  repeat split; trivial.
  - intros n Hn. rewrite !get_col_setitem_ne; congruence.
  - intros n. rewrite !has_col_setitem.
    destruct (String.eqb _ n); reflexivity.
  - rewrite get_col_setitem_eq. rewrite !map_map. reflexivity.
Qed.

Lemma step4_inv df df' :
  step4 df = OK df' ->
  exists price area ratio rounded,
    get_col "Price" df = Some price /\ get_col "Area_sqft" df = Some area /\
    truediv price area = OK ratio /\ round_2 ratio = OK rounded /\
    df' = setitem "Price_per_sqft" rounded df.
Proof.
  unfold step4. intros H. do 4 inv_bind H. injection H as <-.
  apply getitem_OK in E, E0. eauto 10.
Qed.

Lemma existsb_eqb_In n l : existsb (String.eqb n) l = true <-> In n l.
Proof.
  rewrite existsb_exists. split.
  - intros (x & Hx & E). apply String.eqb_eq in E. subst; trivial.
  - intros H. exists n. split; trivial. apply String.eqb_refl.
Qed.

Lemma final_not_dropped n :
  in_final n = true ->
  existsb (String.eqb n) ["Property_Age"; "Water Availability"] = false.
Proof.
  unfold in_final. rewrite existsb_eqb_In. unfold final_cols_order. simpl.
  intros H. repeat (destruct H as [<-|H]; [reflexivity|]). contradiction.
Qed.

Lemma existsb_filter n (p : string -> bool) l :
  existsb (String.eqb n) (List.filter p l) = existsb (String.eqb n) l && p n.
Proof.
  induction l as [|x l IH]; simpl; trivial.
  destruct (p x) eqn:Hp; simpl; rewrite IH.
  - destruct (String.eqb n x) eqn:E; simpl; trivial.
    apply String.eqb_eq in E; subst x. rewrite Hp.
    destruct (existsb _ l); reflexivity.
  - destruct (String.eqb n x) eqn:E; simpl; trivial.
    apply String.eqb_eq in E; subst x. rewrite Hp.
    destruct (existsb _ l); reflexivity.
Qed.

Lemma step5_inv df out :
  step5 df = OK out ->
  columns out
    = existing_final_cols (drop ["Property_Age"; "Water Availability"] df) /\
  forall n, get_col n out = if in_final n then get_col n df else None.
Proof.
  unfold step5. intros H. apply getitems_inv in H. destruct H as [Hc Hg].
  split; trivial. intros n. rewrite Hg. unfold existing_final_cols.
  rewrite existsb_filter. fold (in_final n).
  destruct (in_final n) eqn:Hf; simpl; trivial.
  rewrite get_col_drop, (final_not_dropped _ Hf). unfold has_col.
  rewrite get_col_drop, (final_not_dropped _ Hf).
  destruct (get_col n df); reflexivity.
Qed.

Lemma transform_inv df out :
  transform df = OK out ->
  exists df0 df1 df2 df3 df4,
    step0 df = OK df0 /\ step1 df0 = OK df1 /\ step2 df1 = OK df2 /\
    step3 df2 = OK df3 /\ step4 df3 = OK df4 /\ step5 df4 = OK out.
Proof.
  unfold transform. intros H. do 5 inv_bind H. eauto 12.
Qed.

(** ** The whole transformation, column by column *)

Lemma transform_frame df out :
  transform df = OK out ->
  exists df0 df1,
    step0 df = OK df0 /\ step1 df0 = OK df1 /\
    (forall n, in_final n = true -> ~ In n derived_cols ->
               get_col n out = get_col n df1) /\
    (exists age, get_col "Property_Age" df1 = Some age /\
       get_col "Age_in_Years" out
       = Some (fillna (Num (-1)%float) (map_dict age_map age))) /\
    (exists cs, get_col "Water Availability" df1 = Some (ObjCol cs) /\
       get_col "Water_Availability_Status" out
       = Some (ObjCol (map water_status cs))) /\
    (exists price area ratio rounded,
       get_col "Price" df1 = Some price /\ get_col "Area_sqft" df1 = Some area /\
       truediv price area = OK ratio /\ round_2 ratio = OK rounded /\
       get_col "Price_per_sqft" out = Some rounded).
Proof.
  intros H.
  destruct (transform_inv _ _ H) as (df0 & df1 & df2 & df3 & df4 & H0 & H1 & H2 & H3 & H4 & H5).
  destruct (step2_inv _ _ H2) as (age & Hage & ->).
  destruct (step3_inv _ _ H3) as (cs & Hw & Hne3 & _ & Hs).
  destruct (step4_inv _ _ H4) as (price & area & ratio & rounded & Hp & Ha & Hr & Hrd & ->).
  destruct (step5_inv _ _ H5) as [_ Hg].
  exists df0, df1. repeat split; trivial.
  - intros n Hf Hd. rewrite Hg, Hf. simpl in Hd.
    rewrite get_col_setitem_ne, Hne3, get_col_setitem_ne; intuition.
  - exists age. split; trivial. rewrite Hg. simpl.
    rewrite get_col_setitem_ne, Hne3 by discriminate. apply get_col_setitem_eq.
  - exists cs. rewrite get_col_setitem_ne in Hw by discriminate. split; trivial.
    rewrite Hg. simpl. rewrite get_col_setitem_ne by discriminate. exact Hs.
  - exists price, area, ratio, rounded.
    rewrite Hne3, get_col_setitem_ne in Hp, Ha by discriminate.
    repeat split; trivial. rewrite Hg. simpl. apply get_col_setitem_eq.
Qed.

Lemma transform_columns df out :
  transform df = OK out ->
  columns out
  = List.filter
      (fun col => has_col col df || existsb (String.eqb col) derived_cols)
      final_cols_order.
Proof.
  intros H.
  destruct (transform_inv _ _ H) as (df0 & df1 & df2 & df3 & df4 & H0 & H1 & H2 & H3 & H4 & H5).
  destruct (step0_inv _ _ H0) as (sp & sa & _ & _ & _ & ->).
  destruct (step1_inv _ _ H1) as (Hh1 & _).
  destruct (step2_inv _ _ H2) as (age & _ & ->).
  destruct (step3_inv _ _ H3) as (cs & _ & _ & Hh3 & _).
  destruct (step4_inv _ _ H4) as (price & area & ratio & rounded & _ & _ & _ & _ & ->).
  destruct (step5_inv _ _ H5) as [Hc _]. rewrite Hc.
  unfold existing_final_cols. apply List.filter_ext_in. intros n Hn.
  apply existsb_eqb_In in Hn. unfold has_col at 1.
  rewrite get_col_drop, (final_not_dropped _ Hn). fold (has_col n (setitem "Price_per_sqft" rounded df3)).
  rewrite has_col_setitem, Hh3, has_col_setitem, Hh1, !has_col_loc.
  unfold derived_cols. cbn [existsb]. rewrite !(String.eqb_sym n).
  destruct (has_col n df), (String.eqb "Age_in_Years" n),
    (String.eqb "Water_Availability_Status" n), (String.eqb "Price_per_sqft" n);
    reflexivity.
Qed.

Lemma transform_in_final df out n s :
  transform df = OK out -> get_col n out = Some s -> in_final n = true.
Proof.
  intros H Hs.
  destruct (transform_inv _ _ H) as (df0 & df1 & df2 & df3 & df4 & _ & _ & _ & _ & _ & H5).
  apply step5_inv in H5. destruct H5 as [_ Hg]. rewrite Hg in Hs.
  destruct (in_final n); [reflexivity|discriminate].
Qed.

Lemma transform_price_area df out :
  transform df = OK out ->
  exists df0,
    step0 df = OK df0 /\
    get_col "Price" out = get_col "Price" df0 /\
    get_col "Area_sqft" out = get_col "Area_sqft" df0.
Proof.
  intros H. destruct (transform_frame _ _ H) as (df0 & df1 & H0 & H1 & Hk & _).
  destruct (step1_inv _ _ H1) as (_ & Hu & _).
  exists df0. split; trivial.
  split; (rewrite Hk; [apply Hu| reflexivity |]); simpl; intuition discriminate.
Qed.

(** ** The operations on small inputs *)

Example rint_ties_to_even :
  (rint 0.5, rint 1.5, rint 2.5, rint (-2.5), rint 3.25)
  = (0, 2, 2, -2, 3)%float.
Proof. reflexivity. Qed.

Example round2_samples :
  (round2 2000, round2 0.125, round2 (1000 / 3))
  = (2000, 0x1.eb851eb851eb8p-4, 0x1.4d547ae147ae1p+8)%float.
Proof. reflexivity. Qed.

Example nanmedian_samples :
  (nanmedian [3; nan; 1; 2]%float, nanmedian [4; 1; nan; 2]%float,
   is_nan (nanmedian [nan]%float))
  = (2%float, 2%float, true).
Proof. reflexivity. Qed.

Example search_samples :
  (search water_pattern "Available 12 Hours a day",
   search water_pattern "7 days, 24Hour supply",
   search water_pattern "Hours 24")
  = (Some "12 Hours", Some "24Hour", None).
Proof. reflexivity. Qed.

Example strip_sample : strip "  24 Hours  " = "24 Hours".
Proof. reflexivity. Qed.

(** ** The sample of listings *)

Example transform_listings : transform listings = OK listings_final.
Proof. vm_compute. reflexivity. Qed.

(** ** Row filter *)

(** C1: every row of the output has a Price that is not missing and an
    Area_sqft that is not missing and is greater than 0; the output has as
    many rows as the input has rows that meet the three conditions, so the
    rows that violate one of them are absent. *)
Theorem output_rows_priced_with_positive_area df out :
  transform df = OK out ->
  exists sp sa price area,
    get_col "Price" df = Some sp /\ get_col "Area_sqft" df = Some sa /\
    get_col "Price" out = Some price /\ get_col "Area_sqft" out = Some area /\
    Forall (fun c => isna c = false) (values price) /\
    Forall (fun c => isna c = false /\ positive c = true) (values area) /\
    length (combine (values price) (values area))
      = length (List.filter keep (combine (values sp) (values sa))).
Proof.
  intros H. destruct (transform_price_area _ _ H) as (df0 & H0 & Hp & Ha).
  destruct (step0_rows _ _ H0) as (sp & sa & p0 & a0 & Hsp & Hsa & Hp0 & Ha0 & Hrows & Fp & Fa).
  exists sp, sa, p0, a0. rewrite Hp, Ha, Hrows. repeat split; trivial.
  - eapply Forall_impl; [exact Fp|]. unfold notna. intros c Hc.
    destruct (isna c); [discriminate|reflexivity].
  - eapply Forall_impl; [exact Fa|]. unfold notna. intros c [Hc Hpos].
    destruct (isna c); [discriminate|auto].
Qed.

Lemma output_rows_priced_with_positive_area_witness :
  transform listings = OK listings_final /\
  exists sp sa price area,
    get_col "Price" listings = Some sp /\ get_col "Area_sqft" listings = Some sa /\
    get_col "Price" listings_final = Some price /\
    get_col "Area_sqft" listings_final = Some area /\
    Forall (fun c => isna c = false) (values price) /\
    Forall (fun c => isna c = false /\ positive c = true) (values area) /\
    length (combine (values price) (values area))
      = length (List.filter keep (combine (values sp) (values sa))).
Proof.
  split; [vm_compute; reflexivity|].
  apply (output_rows_priced_with_positive_area listings listings_final).
  vm_compute; reflexivity.
Defined.

(** C10: the rows that pass the filter come out in the order of the input,
    each with the Price and the Area_sqft it had in the input. *)
Theorem surviving_rows_keep_order_and_values df out :
  transform df = OK out ->
  exists sp sa price area,
    get_col "Price" df = Some sp /\ get_col "Area_sqft" df = Some sa /\
    get_col "Price" out = Some price /\ get_col "Area_sqft" out = Some area /\
    combine (values price) (values area)
      = List.filter keep (combine (values sp) (values sa)).
Proof.
  intros H. destruct (transform_price_area _ _ H) as (df0 & H0 & Hp & Ha).
  destruct (step0_rows _ _ H0) as (sp & sa & p0 & a0 & Hsp & Hsa & Hp0 & Ha0 & Hrows & _).
  exists sp, sa, p0, a0. rewrite Hp, Ha. repeat split; trivial.
Qed.

Lemma surviving_rows_keep_order_and_values_witness :
  transform listings = OK listings_final /\
  exists sp sa price area,
    get_col "Price" listings = Some sp /\ get_col "Area_sqft" listings = Some sa /\
    get_col "Price" listings_final = Some price /\
    get_col "Area_sqft" listings_final = Some area /\
    combine (values price) (values area)
      = List.filter keep (combine (values sp) (values sa)).
Proof.
  split; [vm_compute; reflexivity|].
  apply (surviving_rows_keep_order_and_values listings listings_final).
  vm_compute; reflexivity.
Defined.

(** ** Price per square foot *)

Lemma lookup_map {A B} (f : A -> B) (l : list A) (i : nat) :
  map f l !! i = option_map f (l !! i).
Proof.
  revert i; induction l as [|x l IH]; intros [|i]; simpl; auto.
Qed.

Lemma lookup_combine {A B} (l : list A) (k : list B) i x y :
  l !! i = Some x -> k !! i = Some y -> combine l k !! i = Some (x, y).
Proof.
  revert k i; induction l as [|a l IH]; intros [|b k] [|i]; simpl;
    try discriminate; [congruence|auto].
Qed.

Lemma truediv_rounded price area ratio rounded :
  truediv price area = OK ratio -> round_2 ratio = OK rounded ->
  forall i p a,
    values price !! i = Some p -> values area !! i = Some a ->
    exists x y, p = Num x /\ a = Num y /\
      values rounded !! i = Some (Num (round2 (PrimFloat.div x y))).
Proof.
  intros Hd Hr i p a Hp Ha.
  destruct price as [xs|cs], area as [ys|ds]; simpl in Hd.
  1: { injection Hd as <-. injection Hr as <-. simpl in *.
       rewrite lookup_map in Hp, Ha.
       destruct (xs !! i) as [x|] eqn:Hx; [|discriminate].
       destruct (ys !! i) as [y|] eqn:Hy; [|discriminate].
       injection Hp as <-. injection Ha as <-. exists x, y.
       repeat split. rewrite !lookup_map, lookup_zip_with, Hx, Hy. reflexivity. }
  all: inv_bind Hd; injection Hd as <-;
    apply mapM_OK_length in E;
    pose proof (lookup_combine _ _ _ _ _ Hp Ha) as Hc;
    apply lookup_lt_Some in Hc; simpl in Hc, E;
    destruct v as [|z zs]; [simpl in E; lia|discriminate].
Qed.

Lemma price_per_sqft_column df out :
  transform df = OK out ->
  exists price area pps,
    get_col "Price" out = Some price /\ get_col "Area_sqft" out = Some area /\
    get_col "Price_per_sqft" out = Some pps /\
    forall i p a,
      values price !! i = Some p -> values area !! i = Some a ->
      exists x y, p = Num x /\ a = Num y /\
        values pps !! i = Some (Num (round2 (PrimFloat.div x y))).
Proof.
  intros H. destruct (transform_frame _ _ H) as (df0 & df1 & H0 & H1 & Hk & _ & _ & Hpps).
  destruct Hpps as (price & area & ratio & rounded & Hp & Ha & Hd & Hr & Hout).
  exists price, area, rounded. repeat split; trivial.
  - rewrite Hk; trivial. simpl; intuition discriminate.
  - rewrite Hk; trivial. simpl; intuition discriminate.
  - eapply truediv_rounded; eauto.
Qed.

Lemma round_half_even_nearest m d :
  (0 < d)%Z -> nearest_even m d (round_half_even m d).
Proof.
  intros Hd. unfold nearest_even, round_half_even.
  pose proof (Z.div_mod m d) as Hm. pose proof (Z.mod_pos_bound m d Hd) as Hr.
  assert (Hm' : (m = d * (m / d) + m mod d)%Z) by (apply Hm; lia).
  set (q := (m / d)%Z) in *. set (r := (m mod d)%Z) in *.
  destruct (Z.ltb_spec (2 * r) d) as [Hlt|Hge].
  - split; [lia|]. intros Htie. exfalso. lia.
  - destruct (Z.ltb_spec d (2 * r)) as [Hgt|Hle].
    + split; [lia|]. intros Htie. exfalso. lia.
    + destruct (Z.even q) eqn:Hq.
      * split; [lia|]. intros _. exact Hq.
      * split; [lia|]. intros _. rewrite Z.even_add, Hq. reflexivity.
Qed.

Lemma round2_numpy_rounded q : numpy_rounded q (round2 q).
Proof.
  unfold numpy_rounded, round2, rint.
  destruct (Prim2SF (PrimFloat.mul q 100)) as [s|s| |s m e]; try reflexivity.
  destruct (Z.ltb_spec e 0) as [He|He]; [|reflexivity].
  exists (round_half_even (Zpos m) (2 ^ (- e))). split; [|reflexivity].
  apply round_half_even_nearest. apply Z.pow_pos_nonneg; lia.
Qed.

(** C2, as stated, fails: the scaling by 100 that comes before the
    rounding overflows for a quotient of 1e307, which comes out infinite,
    and pushes 16.055 (a little below 16.055 in binary64) above the half,
    so that it comes out as 16.06 and not as 16.05. *)
Lemma price_per_sqft_counterexample :
  transform awkward_prices = OK awkward_prices_final /\
  get_col "Price_per_sqft" awkward_prices_final
    = Some (FloatCol [infinity; 0x1.00f5c28f5c28fp+4; 0x1.4d547ae147ae1p+8]%float) /\
  decimal_round2 (0x1.c7b1f3cac7433p+1019 / 1)%float
    = 0x1.c7b1f3cac7433p+1019%float /\
  decimal_round2 (3211 / 200)%float = 0x1.00ccccccccccdp+4%float /\
  PrimFloat.eqb infinity 0x1.c7b1f3cac7433p+1019 = false /\
  PrimFloat.eqb 0x1.00f5c28f5c28fp+4 0x1.00ccccccccccdp+4 = false.
Proof. repeat split; vm_compute; reflexivity. Qed.

(** C2, amended: in every row of the output, Price_per_sqft is the
    quotient of the Price by the Area_sqft of that row rounded to 2
    decimals the way numpy does it, in binary64: the quotient is multiplied
    by 100, the product is replaced by the nearest integer (ties to the
    even one) and that integer is divided by 100. *)
Theorem price_per_sqft_is_numpy_rounded df out :
  transform df = OK out ->
  exists price area pps,
    get_col "Price" out = Some price /\ get_col "Area_sqft" out = Some area /\
    get_col "Price_per_sqft" out = Some pps /\
    forall i p a,
      values price !! i = Some p -> values area !! i = Some a ->
      exists x y r, p = Num x /\ a = Num y /\
        values pps !! i = Some (Num r) /\
        numpy_rounded (PrimFloat.div x y) r.
Proof.
  intros H.
  destruct (price_per_sqft_column _ _ H) as (price & area & pps & Hp & Ha & Hs & Hrow).
  exists price, area, pps. repeat split; trivial.
  intros i p a Hi Hj. destruct (Hrow i p a Hi Hj) as (x & y & -> & -> & Hv).
  exists x, y, (round2 (PrimFloat.div x y)). repeat split; trivial.
  apply round2_numpy_rounded.
Qed.

Lemma price_per_sqft_is_numpy_rounded_witness :
  transform awkward_prices = OK awkward_prices_final /\
  exists price area pps,
    get_col "Price" awkward_prices_final = Some price /\
    get_col "Area_sqft" awkward_prices_final = Some area /\
    get_col "Price_per_sqft" awkward_prices_final = Some pps /\
    forall i p a,
      values price !! i = Some p -> values area !! i = Some a ->
      exists x y r, p = Num x /\ a = Num y /\
        values pps !! i = Some (Num r) /\
        numpy_rounded (PrimFloat.div x y) r.
Proof.
  split; [vm_compute; reflexivity|].
  apply (price_per_sqft_is_numpy_rounded awkward_prices awkward_prices_final).
  vm_compute; reflexivity.
Defined.

(** ** Imputation *)

Lemma fill_cell_id v c : isna c = false -> fill_cell v c = c.
Proof. unfold fill_cell. intros ->. reflexivity. Qed.

Lemma values_fillna v s : values (fillna v s) = map (fill_cell v) (values s).
Proof.
  destruct s as [xs|cs], v as [y|t]; simpl; trivial.
  - rewrite !map_map. apply map_ext. intros x. unfold fill_cell. simpl.
    destruct (is_nan x); reflexivity.
  - destruct (existsb is_nan xs) eqn:E; simpl; trivial.
    rewrite map_map. apply map_ext_in. intros x Hx. symmetry.
    apply fill_cell_id. simpl.
    destruct (is_nan x) eqn:Hn; trivial.
    assert (existsb is_nan xs = true) by (apply existsb_exists; eauto).
    congruence.
Qed.

Lemma fill_cell_present v c : isna v = false -> isna (fill_cell v c) = false.
Proof. unfold fill_cell. intros Hv. destruct (isna c) eqn:Hc; trivial. Qed.

Lemma filled_no_missing v cs :
  isna v = false -> Forall (fun c => isna c = false) (map (fill_cell v) cs).
Proof.
  intros Hv. apply List.Forall_forall. intros c Hc.
  apply in_map_iff in Hc. destruct Hc as (c' & <- & _).
  apply fill_cell_present; trivial.
Qed.

Lemma step1_keeps_absent df df1 n :
  step1 df = OK df1 -> get_col n df = None -> get_col n df1 = None.
Proof.
  intros H Hn. destruct (step1_inv _ _ H) as (Hh & _).
  specialize (Hh n). unfold has_col in Hh. rewrite Hn in Hh.
  destruct (get_col n df1); [discriminate|reflexivity].
Qed.

(** C3, as stated, fails: a numeric column that has no value after the
    filter has NaN for median and keeps its missing values. *)
Lemma numeric_columns_filled_counterexample :
  exists out s,
    transform all_missing_washrooms = OK out /\
    In "Washrooms" numerical_cols /\
    get_col "Washrooms" out = Some s /\
    Exists (fun c => isna c = true) (values s).
Proof.
  eexists. eexists. split; [vm_compute; reflexivity|].
  split; [simpl; tauto|]. split; [vm_compute; reflexivity|].
  apply Exists_cons_hd. reflexivity.
Qed.

(** C3, amended: in every column of the numeric set that the output has,
    each missing value of the filtered column has been replaced by the
    median of that column over the filtered table, and the column has no
    missing value when that median is defined (is not NaN). *)
Theorem numeric_columns_filled_with_median df out col s :
  transform df = OK out ->
  In col numerical_cols ->
  get_col col out = Some s ->
  exists df0 s0 median_val,
    step0 df = OK df0 /\ get_col col df0 = Some s0 /\
    median s0 = OK median_val /\
    values s = map (fill_cell (Num median_val)) (values s0) /\
    (is_nan median_val = false -> Forall (fun c => isna c = false) (values s)).
Proof.
  intros H Hcol Hs.
  destruct (transform_frame _ _ H) as (df0 & df1 & H0 & H1 & Hk & _).
  rewrite Hk in Hs.
  2: { apply existsb_eqb_In. unfold numerical_cols in Hcol. simpl in *. tauto. }
  2: { unfold numerical_cols in Hcol. simpl in *. intuition (subst; discriminate). }
  destruct (get_col col df0) as [s0|] eqn:Hs0.
  2: { rewrite (step1_keeps_absent _ _ _ H1 Hs0) in Hs. discriminate. }
  destruct (step1_inv _ _ H1) as (_ & _ & Hnum & _).
  destruct (Hnum _ _ Hcol Hs0) as (s' & Hfill & Hs').
  rewrite Hs' in Hs. injection Hs as <-.
  unfold numeric_fill in Hfill. inv_bind Hfill. injection Hfill as <-.
  exists df0, s0, v. repeat split; trivial.
  - apply values_fillna.
  - intros Hm. rewrite values_fillna. apply filled_no_missing. exact Hm.
Qed.

Lemma numeric_columns_filled_with_median_witness :
  transform listings = OK listings_final /\
  In "Washrooms" numerical_cols /\
  get_col "Washrooms" listings_final = Some (FloatCol [2; 2]%float) /\
  exists df0 s0 median_val,
    step0 listings = OK df0 /\ get_col "Washrooms" df0 = Some s0 /\
    median s0 = OK median_val /\
    values (FloatCol [2; 2]%float) = map (fill_cell (Num median_val)) (values s0) /\
    (is_nan median_val = false ->
     Forall (fun c => isna c = false) (values (FloatCol [2; 2]%float))).
Proof.
  assert (T : transform listings = OK listings_final) by (vm_compute; reflexivity).
  assert (I : In "Washrooms" numerical_cols) by (simpl; tauto).
  assert (G : get_col "Washrooms" listings_final = Some (FloatCol [2; 2]%float))
    by (vm_compute; reflexivity).
  repeat split; trivial.
  exact (numeric_columns_filled_with_median listings listings_final "Washrooms" _ T I G).
Defined.



(** ** Property age *)

Lemma age_of_cell c :
  (let x := map_cell age_map (fill_cell (Str "Not Specified") c) in
   if is_nan x then (-1)%float else x) = age_in_years c.
Proof.
  destruct c as [x|k].
  - cbv [fill_cell isna]. destruct (is_nan x); reflexivity.
  - cbv [fill_cell isna map_cell dict_get age_map age_in_years].
    repeat (match goal with
            | |- context [String.eqb ?a k] => destruct (String.eqb a k)
            end; try reflexivity).
Qed.

Lemma age_in_years_listed c : In (age_in_years c) age_values.
Proof.
  destruct c as [x|k]; cbv [age_in_years age_values In].
  - auto 10.
  - repeat (match goal with
            | |- context [String.eqb ?a k] => destruct (String.eqb a k)
            end; auto 10).
Qed.

(** C4: Age_in_Years is, in every row, the number the table gives for the
    Property_Age of that row, -1 when the age is missing ("Not Specified"
    after imputation) or is not in the table; it is one of 0, 2.5, 7.5,
    12.5, 17.5, 25 and -1. *)
Theorem age_in_years_from_table df out :
  transform df = OK out ->
  exists df0 s0 ages,
    step0 df = OK df0 /\ get_col "Property_Age" df0 = Some s0 /\
    get_col "Age_in_Years" out = Some (FloatCol ages) /\
    ages = map age_in_years (values s0) /\
    Forall (fun x => In x age_values) ages.
Proof.
  intros H.
  destruct (transform_frame _ _ H) as (df0 & df1 & H0 & H1 & _ & Hage & _).
  destruct Hage as (age & Hage & Hout).
  destruct (get_col "Property_Age" df0) as [s0|] eqn:Hs0.
  2: { rewrite (step1_keeps_absent _ _ _ H1 Hs0) in Hage. discriminate. }
  destruct (step1_inv _ _ H1) as (_ & _ & _ & Hcat).
  rewrite (Hcat "Property_Age" s0) in Hage; trivial; [|simpl; tauto].
  injection Hage as <-.
  exists df0, s0, (map age_in_years (values s0)).
  repeat split; trivial.
  - rewrite Hout. unfold map_dict. simpl. rewrite values_fillna, !map_map.
    do 2 f_equal. apply map_ext. intros c. apply age_of_cell.
  - apply List.Forall_forall. intros x Hx. apply in_map_iff in Hx.
    destruct Hx as (c & <- & _). apply age_in_years_listed.
Qed.

Lemma age_in_years_from_table_witness :
  transform listings = OK listings_final /\
  exists df0 s0 ages,
    step0 listings = OK df0 /\ get_col "Property_Age" df0 = Some s0 /\
    get_col "Age_in_Years" listings_final = Some (FloatCol ages) /\
    ages = map age_in_years (values s0) /\
    Forall (fun x => In x age_values) ages.
Proof.
  split; [vm_compute; reflexivity|].
  apply (age_in_years_from_table listings listings_final).
  vm_compute; reflexivity.
Defined.

(** ** Water availability *)

#[local] Arguments String.append : simpl nomatch.

Lemma one_inv p k s m :
  one p k s = Some m ->
  exists c s' m', s = String c s' /\ p c = true /\ k s' = Some m' /\ m = String c m'.
Proof.
  destruct s as [|c s]; simpl; [discriminate|].
  destruct (p c) eqn:Hp; [|discriminate].
  destruct (k s) as [m'|] eqn:Hk; simpl; [|discriminate].
  intros H; injection H as <-. eauto 8.
Qed.

Lemma many_inv p k s m :
  many p k s = Some m ->
  exists pre s' m', k s' = Some m' /\ m = (pre ++ m')%string.
Proof.
  revert m; induction s as [|c s IH]; simpl; intros m H.
  - exists EmptyString, EmptyString, m. auto.
  - destruct (p c).
    + destruct (many p k s) as [m0|] eqn:Hm.
      * injection H as <-. destruct (IH _ eq_refl) as (pre & s' & m' & Hk & ->).
        exists (String c pre), s', m'. auto.
      * exists EmptyString, (String c s), m. auto.
    + exists EmptyString, (String c s), m. auto.
Qed.

Lemma search_inv re s m :
  search re s = Some m -> exists s', match_here re s' = Some m.
Proof.
  induction s as [|c s IH]; simpl; destruct (match_here re _) eqn:Hm; intros H;
    try discriminate; try (injection H as <-); eauto.
Qed.

Lemma append_assoc (x y z : string) : ((x ++ y) ++ z = x ++ (y ++ z))%string.
Proof. induction x as [|c x IH]; simpl; [|rewrite IH]; reflexivity. Qed.

Lemma water_match_shape s m :
  match_here water_pattern s = Some m ->
  exists d body,
    is_digit d = true /\
    (m = String d (body ++ "Hour") \/ m = String d (body ++ "Hours")).
Proof.
  unfold water_pattern. cbn [match_here]. intros H.
  apply one_inv in H. destruct H as (d & s1 & m1 & _ & Hd & H & ->).
  apply many_inv in H. destruct H as (ds & s2 & m2 & H & ->).
  apply many_inv in H. destruct H as (ws & s3 & m3 & H & ->).
  exists d, (ds ++ ws)%string. split; trivial.
  repeat (apply one_inv in H;
          let c := fresh "c" in let E := fresh "Ec" in
          destruct H as (c & ? & ? & _ & E & H & ->);
          apply Ascii.eqb_eq in E; subst c).
  rewrite <- !append_assoc.
  destruct (one _ _ _) as [m4|] eqn:Hs in H.
  - injection H as <-. apply one_inv in Hs.
    destruct Hs as (c & ? & ? & _ & E & Hs & ->).
    apply Ascii.eqb_eq in E; subst c. injection Hs as <-. right; reflexivity.
  - injection H as <-. left; reflexivity.
Qed.

Lemma digit_not_space d : is_digit d = true -> is_space d = false.
Proof.
  destruct d as [[] [] [] [] [] [] [] []]; try discriminate; reflexivity.
Qed.

Lemma remove_char_app a x y :
  remove_char a (x ++ y) = (remove_char a x ++ remove_char a y)%string.
Proof.
  induction x as [|c x IH]; simpl; trivial.
  destruct (Ascii.eqb c a); simpl; rewrite IH; reflexivity.
Qed.

Lemma rstrip_app x y :
  y <> EmptyString -> rstrip y = y -> rstrip (x ++ y) = (x ++ y)%string.
Proof.
  intros Hy Hr. induction x as [|c x IH]; simpl; trivial.
  rewrite IH. destruct (x ++ y)%string eqn:E; trivial.
  destruct x; simpl in E; [contradiction|discriminate].
Qed.

Lemma has_char_remove a t : has_char a (remove_char a t) = false.
Proof.
  induction t as [|c t IH]; simpl; trivial.
  destruct (Ascii.eqb c a) eqn:E; simpl; rewrite ?E; auto.
Qed.

Lemma strip_match s m :
  match_here water_pattern s = Some m ->
  strip (remove_char " " m) = remove_char " " m.
Proof.
  intros H. apply water_match_shape in H. destruct H as (d & body & Hd & Hm).
  pose proof (digit_not_space _ Hd) as Hsp.
  assert (Hne : Ascii.eqb d " " = false).
  { destruct (Ascii.eqb d " ") eqn:E; trivial.
    apply Ascii.eqb_eq in E; subst d. discriminate. }
  unfold strip.
  destruct Hm as [-> | ->]; cbn [remove_char]; rewrite Hne, remove_char_app;
    cbn [lstrip]; rewrite Hsp;
    change (String d (?x ++ ?y)) with (String d x ++ y)%string;
    (apply rstrip_app; [discriminate|reflexivity]).
Qed.

Lemma water_status_of c : water_status c = Str (status_of c).
Proof.
  unfold water_status, status_of, extract_cell.
  destruct c as [x|t]; [reflexivity|].
  destruct (search water_pattern t) as [m|] eqn:Hm; [|reflexivity].
  apply search_inv in Hm. destruct Hm as (s' & Hm).
  cbn [fill_cell isna str_cell]. f_equal. eapply strip_match; eauto.
Qed.

Lemma status_without_space c : has_char " " (status_of c) = false.
Proof.
  unfold status_of. destruct c as [x|t]; [reflexivity|].
  destruct (search water_pattern t); [apply has_char_remove|reflexivity].
Qed.

Lemma no_whitespace_remove m :
  all_chars (fun c => negb (is_space c) || Ascii.eqb c " ") m = true ->
  no_whitespace (remove_char " " m) = true.
Proof.
  unfold no_whitespace. induction m as [|c m IH]; simpl; trivial.
  intros H. apply andb_prop in H. destruct H as [Hc Hm].
  destruct (Ascii.eqb c " ") eqn:E; simpl; [auto|].
  rewrite orb_false_r in Hc. rewrite Hc. auto.
Qed.

Lemma status_without_whitespace c :
  plain_spaces c = true -> no_whitespace (status_of c) = true.
Proof.
  unfold plain_spaces, status_of. destruct c as [x|t]; [reflexivity|].
  destruct (search water_pattern t); [apply no_whitespace_remove|reflexivity].
Qed.

(** C5, as stated, fails twice: a value without a match becomes
    "NotSpecified", not "Not Specified", and a tab between the digits and
    "Hours" stays in the status. *)
Lemma water_status_counterexample :
  exists out,
    transform water_samples = OK out /\
    get_col "Water_Availability_Status" out
      = Some (ObjCol [Str "NotSpecified"; Str ("24" ++ tab ++ "Hours")]) /\
    search water_pattern "No supply" = None /\
    "NotSpecified" <> "Not Specified" /\
    search water_pattern ("24" ++ tab ++ "Hours") = Some ("24" ++ tab ++ "Hours") /\
    is_space "009" = true /\
    has_char "009" ("24" ++ tab ++ "Hours") = true.
Proof.
  eexists. split; [vm_compute; reflexivity|].
  repeat split; try (vm_compute; reflexivity). discriminate.
Qed.

(** C5, amended: in every row, Water_Availability_Status is the leftmost
    text of Water Availability that matches digits, optional white space
    and "Hour" or "Hours", without its space characters (U+0020), or
    "NotSpecified" when nothing matches or the value is missing; no status
    has a space character, and none has any white space when the white
    space of the matched text is made of space characters. *)
Theorem water_status_without_spaces df out :
  transform df = OK out ->
  exists df0 cs,
    step0 df = OK df0 /\
    get_col "Water Availability" df0 = Some (ObjCol cs) /\
    get_col "Water_Availability_Status" out
      = Some (ObjCol (map (fun c => Str (status_of c)) cs)) /\
    Forall (fun c => has_char " " (status_of c) = false /\
                     (plain_spaces c = true ->
                      no_whitespace (status_of c) = true)) cs.
Proof.
  intros H.
  destruct (transform_frame _ _ H) as (df0 & df1 & H0 & H1 & _ & _ & Hw & _).
  destruct Hw as (cs & Hcs & Hout).
  destruct (step1_inv _ _ H1) as (_ & Hu & _).
  rewrite Hu in Hcs; [|simpl; intuition discriminate..].
  exists df0, cs. repeat split; trivial.
  - rewrite Hout. do 2 f_equal. apply map_ext. apply water_status_of.
  - apply List.Forall_forall. intros c _.
    split; [apply status_without_space|apply status_without_whitespace].
Qed.

Lemma water_status_without_spaces_witness :
  transform listings = OK listings_final /\
  exists df0 cs,
    step0 listings = OK df0 /\
    get_col "Water Availability" df0 = Some (ObjCol cs) /\
    get_col "Water_Availability_Status" listings_final
      = Some (ObjCol (map (fun c => Str (status_of c)) cs)) /\
    Forall (fun c => has_char " " (status_of c) = false /\
                     (plain_spaces c = true ->
                      no_whitespace (status_of c) = true)) cs.
Proof.
  split; [vm_compute; reflexivity|].
  apply (water_status_without_spaces listings listings_final).
  vm_compute; reflexivity.
Defined.

(** ** Columns of the output *)

(** C6, as stated, fails: the list of the script has 28 names, and a table
    that has them all comes out with 28 columns, which no list of 27 names
    can give. *)
Lemma canonical_columns_counterexample :
  exists out,
    transform complete_listing = OK out /\
    length (columns out) = 28 /\
    forall (names : list string) (present : string -> bool),
      length names = 27 -> columns out <> List.filter present names.
Proof.
  eexists. split; [vm_compute; reflexivity|]. split; [reflexivity|].
  intros names present Hn Heq.
  pose proof (List.filter_length_le present names) as Hle.
  rewrite <- Heq, Hn in Hle. simpl in Hle. lia.
Qed.

(** C6, amended: the columns of the output are the names of the fixed list
    of 28 names that are columns of the input or one of the three derived
    columns, in the order of that list; Property_Age and Water Availability
    are never among them. *)
Theorem output_columns_in_canonical_order df out :
  transform df = OK out ->
  columns out
  = List.filter
      (fun col => has_col col df || existsb (String.eqb col) derived_cols)
      final_cols_order /\
  length final_cols_order = 28 /\
  ~ In "Property_Age" (columns out) /\
  ~ In "Water Availability" (columns out).
Proof.
  intros H. pose proof (transform_columns _ _ H) as Hc.
  split; [exact Hc|]. split; [reflexivity|].
  rewrite Hc. split; intros Hin; apply List.filter_In in Hin;
    destruct Hin as [Hin _]; unfold final_cols_order in Hin; simpl in Hin;
    intuition discriminate.
Qed.

Lemma output_columns_in_canonical_order_witness :
  transform listings = OK listings_final /\
  columns listings_final
  = List.filter
      (fun col => has_col col listings || existsb (String.eqb col) derived_cols)
      final_cols_order /\
  length final_cols_order = 28 /\
  ~ In "Property_Age" (columns listings_final) /\
  ~ In "Water Availability" (columns listings_final).
Proof.
  split; [vm_compute; reflexivity|].
  apply (output_columns_in_canonical_order listings listings_final).
  vm_compute; reflexivity.
Defined.

(** ** Missing input *)

(** C8: when the input file does not exist or cannot be read, the function
    writes no file: it prints the error and returns when the file does not
    exist, and leaves with the error raised when it cannot be read.  Run as
    a program on an input file that does not exist, the script writes no
    file and raises nothing. *)
Theorem no_output_without_input input output sep w :
  files w !! input = None \/ files w !! input = Some Unreadable ->
  (exists r w',
     finalize_property_data input output w = (r, w') /\
     files w' = files w /\
     match files w !! input with
     | None => r = OK tt /\ In (not_found_message input) (stdout w')
     | Some _ => r = Raise (OSError input)
     end) /\
  (files w !! INPUT_FILE sep = None ->
   exists w', main sep w = (OK tt, w') /\ files w' = files w).
Proof.
  intros Hin. split.
  - unfold finalize_property_data, read_csv. simpl.
    destruct Hin as [Hin|Hin]; rewrite Hin; eexists; eexists;
      (split; [reflexivity|]); simpl; split; trivial.
    split; trivial. apply in_or_app. right. left. reflexivity.
  - intros Hmain. unfold main, os_path_exists. rewrite Hmain.
    eexists. split; reflexivity.
Qed.

Lemma no_output_without_input_witness :
  (files locked_world !! "absent.csv" = None /\
   files locked_world !! "locked.csv" = Some Unreadable) /\
  (exists r w',
     finalize_property_data "absent.csv" "out.csv" locked_world = (r, w') /\
     files w' = files locked_world /\ r = OK tt /\
     In (not_found_message "absent.csv") (stdout w')) /\
  (exists r w',
     finalize_property_data "locked.csv" "out.csv" locked_world = (r, w') /\
     files w' = files locked_world /\ r = Raise (OSError "locked.csv")) /\
  (exists w', main "\" locked_world = (OK tt, w') /\ files w' = files locked_world).
Proof.
  assert (Ha : files locked_world !! "absent.csv" = None) by (vm_compute; reflexivity).
  assert (Hl : files locked_world !! "locked.csv" = Some Unreadable)
    by (vm_compute; reflexivity).
  assert (Hm : files locked_world !! INPUT_FILE "\" = None) by (vm_compute; reflexivity).
  split; [split; assumption|].
  pose proof (no_output_without_input "absent.csv" "out.csv" "\" locked_world (or_introl Ha))
    as [(r & w' & Hf & Hw & Hr) [wm Hmain]]; trivial.
  pose proof (no_output_without_input "locked.csv" "out.csv" "\" locked_world (or_intror Hl))
    as [(r2 & w2 & Hf2 & Hw2 & Hr2) _].
  rewrite Ha in Hr. rewrite Hl in Hr2. destruct Hr as [Hr Hmsg].
  repeat split; eauto 10.
Defined.

(** ** Absent columns *)

Lemma gt_zero_floats xs :
  mapM gt_zero_cell (map Num xs) = OK (map (PrimFloat.ltb 0) xs).
Proof. induction xs as [|x xs IH]; simpl; [|rewrite IH]; reflexivity. Qed.

Lemma foldM_update_col_total g cols :
  List.NoDup cols -> forall df,
  (forall n s, In n cols -> get_col n df = Some s -> exists s', g s = OK s') ->
  exists df', foldM (update_col g) cols df = OK df'.
Proof.
  induction 1 as [|c cols Hc Hnd IH]; simpl; intros df Hg; [eauto|].
  assert (exists df1, update_col g df c = OK df1) as [df1 H1].
  { unfold update_col. destruct (get_col c df) as [s|] eqn:Hs; [|eauto].
    destruct (Hg c s) as [s' ->]; simpl; eauto. }
  rewrite H1. simpl. apply IH. intros n s Hn Hs.
  destruct (update_col_inv _ _ _ _ H1) as (Hne & _).
  rewrite Hne in Hs; [eauto|]. intros ->. contradiction.
Qed.

Lemma str_accessor_textual cs :
  Forall textual cs -> str_accessor (ObjCol cs) = OK cs.
Proof.
  intros H. simpl.
  assert (Hp : forallb is_num (List.filter notna cs) = true ->
               length (List.filter notna cs) = 0).
  { induction H as [|c cs Hc _ IH]; simpl; trivial.
    unfold notna. destruct Hc as [Hc|Hc].
    - rewrite Hc. simpl. exact IH.
    - destruct (isna c); simpl; [exact IH|]. rewrite Hc. discriminate. }
  destruct (forallb is_num _); [rewrite Hp; trivial|];
    destruct (negb _); reflexivity.
Qed.

Lemma textual_select m cs : Forall textual cs -> Forall textual (select m cs).
Proof. apply select_Forall. Qed.

Lemma textual_extracted v re cs :
  Forall textual (map (fill_cell (Str v)) (map (extract_cell re) cs)).
Proof.
  apply List.Forall_forall. intros c Hc. apply in_map_iff in Hc.
  destruct Hc as (c1 & <- & Hc). apply in_map_iff in Hc.
  destruct Hc as (c0 & <- & _). right.
  destruct c0 as [x|t]; simpl; [reflexivity|].
  destruct (search re t); reflexivity.
Qed.

Lemma textual_str f cs : Forall textual (map (str_cell f) cs).
Proof.
  apply List.Forall_forall. intros c Hc. apply in_map_iff in Hc.
  destruct Hc as (c0 & <- & _).
  destruct c0 as [x|t]; [left|right]; reflexivity.
Qed.

Lemma step0_total df :
  (exists ps, get_col "Price" df = Some (FloatCol ps)) ->
  (exists xs, get_col "Area_sqft" df = Some (FloatCol xs)) ->
  exists df0, step0 df = OK df0.
Proof.
  intros [ps Hp] [xs Ha]. unfold step0, dropna. rewrite Hp, Ha. simpl.
  unfold getitem. rewrite get_col_loc, Ha. simpl.
  unfold gt_zero. simpl. rewrite gt_zero_floats. simpl. eauto.
Qed.

Lemma step1_total df :
  (forall col s, In col numerical_cols -> get_col col df = Some s ->
                 exists xs, s = FloatCol xs) ->
  exists df1, step1 df = OK df1.
Proof.
  intros Hnum. unfold step1.
  rewrite (foldM_ext _ _ _ _ impute_numeric_update).
  destruct (foldM_update_col_total numeric_fill _ NoDup_numerical_cols df) as [dfn ->].
  { intros n s Hn Hs. destruct (Hnum _ _ Hn Hs) as [xs ->].
    unfold numeric_fill. simpl. eauto. }
  cbn [bind]. rewrite (foldM_ext _ _ _ _ impute_categorical_update).
  apply foldM_update_col_total; [apply NoDup_categorical_cols|].
  intros n s _ _. unfold categorical_fill. eauto.
Qed.

Lemma step3_total df ws :
  get_col "Water Availability" df = Some (ObjCol ws) -> Forall textual ws ->
  exists df3, step3 df = OK df3.
Proof.
  intros Hw Ht. unfold step3, getitem. rewrite Hw. cbn [bind].
  unfold str_extract. rewrite (str_accessor_textual _ Ht). cbn [bind].
  rewrite get_col_setitem_eq. cbn [bind fillna]. unfold str_map.
  rewrite str_accessor_textual by apply textual_extracted. cbn [bind].
  rewrite str_accessor_textual by apply textual_str. cbn [bind]. eauto.
Qed.

Lemma getitems_existing names df :
  exists out, getitems (List.filter (fun col => has_col col df) names) df = OK out.
Proof.
  apply getitems_total. apply List.Forall_forall. intros n Hn.
  apply List.filter_In in Hn. destruct Hn as [_ Hn]. exact Hn.
Qed.

Lemma step5_total df : exists out, step5 df = OK out.
Proof. exact (getitems_existing final_cols_order _). Qed.

Lemma transform_total df :
  required_present df -> exists out, transform df = OK out.
Proof.
  intros (Hp & Ha & Hage & (ws & Hw & Ht) & Hnum).
  destruct (step0_total df Hp Ha) as [df0 H0].
  destruct (step0_inv _ _ H0) as (sp & sa & _ & _ & _ & Hdf0).
  set (m1 := both_present sp sa) in *.
  set (m2 := map positive (select m1 (values sa))) in *.
  assert (G0 : forall n, get_col n df0
                 = option_map (take m2) (option_map (take m1) (get_col n df))).
  { intros n. rewrite Hdf0, !get_col_loc. reflexivity. }
  destruct (step1_total df0) as [df1 H1].
  { intros col s Hcol Hs. rewrite G0 in Hs.
    destruct (get_col col df) as [s0|] eqn:Hs0; [|discriminate].
    destruct (Hnum _ _ Hcol Hs0) as [xs ->]. injection Hs as <-. simpl. eauto. }
  destruct (step1_inv _ _ H1) as (Hh1 & Hu1 & _).
  assert (exists df2, step2 df1 = OK df2) as [df2 H2].
  { unfold step2, getitem. specialize (Hh1 "Property_Age").
    rewrite Hdf0, !has_col_loc, Hage in Hh1. unfold has_col in Hh1.
    destruct (get_col "Property_Age" df1); [simpl; eauto|discriminate]. }
  destruct (step2_inv _ _ H2) as (age & _ & Hdf2).
  assert (G2 : forall n, ~ In n numerical_cols -> ~ In n categorical_cols ->
                 n <> "Age_in_Years" -> get_col n df2 = get_col n df0).
  { intros n N1 N2 N3. rewrite Hdf2, get_col_setitem_ne, Hu1; auto. }
  destruct (step3_total df2 (select m2 (select m1 ws))) as [df3 H3].
  { rewrite G2, G0, Hw; [reflexivity|simpl; intuition discriminate..|discriminate]. }
  { apply textual_select, textual_select, Ht. }
  destruct (step3_inv _ _ H3) as (_ & _ & Hne3 & _).
  destruct Hp as [ps Hp]. destruct Ha as [xs Ha].
  assert (exists df4, step4 df3 = OK df4) as [df4 H4].
  { unfold step4, getitem. rewrite !Hne3 by discriminate.
    rewrite !G2, !G0, Hp, Ha; try (simpl; intuition discriminate); try discriminate.
    simpl. eauto. }
  destruct (step5_total df4) as [out H5].
  exists out. unfold transform. rewrite H0. cbn [bind]. rewrite H1. cbn [bind].
  rewrite H2. cbn [bind]. rewrite H3. cbn [bind]. rewrite H4. exact H5.
Qed.

(** C9, as stated, fails: the row filter does not skip a missing Price, it
    raises. *)
Lemma absent_column_counterexample :
  get_col "Price" no_price = None /\
  transform no_price = Raise (KeyError ["Price"]).
Proof. split; vm_compute; reflexivity. Qed.

(** C9, amended: the two imputation loops, the pruning and the selection
    of the final columns skip a column that is absent and raise nothing.
    A table is processed to the end, whichever other columns it lacks,
    when it has Price and Area_sqft held as numbers, a Property_Age
    column, a Water Availability column held as text, and numbers in
    every column of the numeric set that it has.  Without Price or
    Area_sqft the row filter raises a KeyError. *)
Theorem absent_columns_skipped_where_tested df :
  (forall col, get_col col df = None ->
     impute_numeric df col = OK df /\ impute_categorical df col = OK df) /\
  (forall names, (forall n, In n names -> get_col n df = None) ->
     drop names df = df) /\
  (exists out, step5 df = OK out) /\
  (required_present df -> exists out, transform df = OK out) /\
  (get_col "Price" df = None \/ get_col "Area_sqft" df = None ->
   exists keys, transform df = Raise (KeyError keys)).
Proof.
  split; [|split; [|split; [|split]]].
  - intros col Hc. unfold impute_numeric, impute_categorical. rewrite Hc. auto.
  - intros names Hn. unfold drop. induction df as [|[m s] df IH]; simpl; trivial.
    assert (Hm : existsb (String.eqb m) names = false).
    { destruct (existsb (String.eqb m) names) eqn:E; trivial.
      apply existsb_eqb_In in E. specialize (Hn m E). simpl in Hn.
      rewrite String.eqb_refl in Hn. discriminate. }
    rewrite Hm. simpl. f_equal. apply IH. intros n Hin.
    specialize (Hn n Hin). simpl in Hn.
    destruct (String.eqb m n); [discriminate|exact Hn].
  - apply step5_total.
  - apply transform_total.
  - intros Habs. unfold transform, step0, dropna.
    destruct (get_col "Price" df) eqn:Hp, (get_col "Area_sqft" df) eqn:Ha;
      simpl; eauto.
    destruct Habs; discriminate.
Qed.

Lemma listings_required_present : required_present listings.
Proof.
  unfold required_present. repeat split.
  - eexists. vm_compute. reflexivity.
  - eexists. vm_compute. reflexivity.
  - eexists. split; [vm_compute; reflexivity|].
    repeat constructor; solve [left; reflexivity | right; reflexivity].
  - intros col s Hcol Hs. unfold numerical_cols in Hcol. simpl in Hcol.
    repeat (destruct Hcol as [<-|Hcol];
            [vm_compute in Hs; first [discriminate | injection Hs as <-; eauto]|]).
    contradiction.
Defined.

Lemma absent_columns_skipped_where_tested_witness :
  required_present listings /\
  get_col "Zoning" listings = None /\
  get_col "Price" no_price = None /\
  impute_categorical listings "Zoning" = OK listings /\
  (exists out, transform listings = OK out) /\
  (exists keys, transform no_price = Raise (KeyError keys)).
Proof.
  assert (Hz : get_col "Zoning" listings = None) by (vm_compute; reflexivity).
  assert (Hp : get_col "Price" no_price = None) by (vm_compute; reflexivity).
  split; [exact listings_required_present|]. split; [exact Hz|]. split; [exact Hp|].
  split; [|split].
  - apply (absent_columns_skipped_where_tested listings). exact Hz.
  - apply (absent_columns_skipped_where_tested listings).
    exact listings_required_present.
  - apply (absent_columns_skipped_where_tested no_price). left. exact Hp.
Defined.

(** ** The function and the transformation *)

(** On a file that can be read, the function writes the result of
    [transform] to the output path when that path can be written, and
    writes nothing when a step raises or the path cannot be written. *)
Lemma finalize_runs_transform input output w df :
  files w !! input = Some (CsvFile df) ->
  exists w',
    finalize_property_data input output w
      = (match transform df with
         | OK _ =>
             if writable w output
             then if tabulate w then OK tt else Raise ImportError
             else Raise (OSError output)
         | Raise e => Raise e
         end, w') /\
    files w'
      = match transform df with
        | OK out =>
            if writable w output
            then <[output := CsvFile out]> (files w) else files w
        | Raise _ => files w
        end.
Proof.
  intros Hf. unfold finalize_property_data, read_csv, transform, attempt, to_csv.
  cbn [print files writable tabulate]. rewrite Hf.
  destruct (step0 df) as [df0|e]; cbn [bind]; [|eauto].
  destruct (step1 df0) as [df1|e]; cbn [bind]; [|eauto].
  destruct (step2 df1) as [df2|e]; cbn [bind]; [|eauto].
  destruct (step3 df2) as [df3|e]; cbn [bind]; [|eauto].
  destruct (step4 df3) as [df4|e]; cbn [bind]; [|eauto].
  destruct (step5 df4) as [out|e]; [|eauto].
  destruct (writable w output); [|eauto].
  destruct (tabulate w); eauto.
Qed.

(** * Further properties *)

(** ** What the function does to the files *)

Lemma finalize_outcome input output w :
  exists r w',
    finalize_property_data input output w = (r, w') /\
    ((files w' = files w /\ r <> Raise ImportError /\
      (r = OK tt -> files w !! input = None)) \/
     ((r = if tabulate w then OK tt else Raise ImportError) /\
      exists df out, files w !! input = Some (CsvFile df) /\
        transform df = OK out /\ writable w output = true /\
        files w' = <[output := CsvFile out]> (files w)) \/
     (files w' = files w /\ r = Raise ImportError /\
      exists df, files w !! input = Some (CsvFile df) /\
        transform df = Raise ImportError)).
Proof.
  destruct (files w !! input) as [[df|]|] eqn:Hf.
  - destruct (finalize_runs_transform input output w df Hf) as (w' & Hr & Hw).
    rewrite Hr. destruct (transform df) as [out|e] eqn:Ht.
    + destruct (writable w output) eqn:Hwr;
        eexists; eexists; (split; [reflexivity|]).
      * right. left. split; trivial. exists df, out. auto.
      * left. repeat split; trivial; discriminate.
    + eexists; eexists; (split; [reflexivity|]).
      destruct e; try (left; repeat split; trivial; discriminate).
      right. right. repeat split; trivial. eauto.
  - unfold finalize_property_data, read_csv. cbn [print files]. rewrite Hf.
    eexists; eexists; (split; [reflexivity|]).
    left. repeat split; trivial; discriminate.
  - unfold finalize_property_data, read_csv. cbn [print files]. rewrite Hf.
    eexists; eexists; (split; [reflexivity|]). left. repeat split; trivial.
    discriminate.
Qed.

Lemma finalize_changes_output_only input output w r w' :
  finalize_property_data input output w = (r, w') ->
  forall path, path <> output -> files w' !! path = files w !! path.
Proof.
  intros H.
  destruct (finalize_outcome input output w) as (r0 & w0 & Hr & Hcase).
  rewrite Hr in H. injection H as -> ->.
  destruct Hcase as [(Hw & _)|[(_ & df & out & _ & _ & _ & Hw)|(Hw & _)]];
    intros path Hp; rewrite Hw; trivial.
  apply lookup_insert_ne. congruence.
Qed.

(** X1: when the function ends with an exception raised by the reading, by
    a step of the transformation or by the writing, no file has been
    written or changed; the one exception that can follow the writing is
    the [ImportError] of the last line, on a machine without [tabulate],
    and then the output path holds the transformed table. *)
Theorem failure_keeps_files_or_follows_the_save input output w e w' :
  finalize_property_data input output w = (Raise e, w') ->
  files w' = files w \/
  (e = ImportError /\ tabulate w = false /\
   exists df out,
     files w !! input = Some (CsvFile df) /\ transform df = OK out /\
     files w' = <[output := CsvFile out]> (files w)).
Proof.
  intros H. destruct (finalize_outcome input output w) as (r & w0 & Hr & Hcase).
  rewrite Hr in H. injection H as -> ->.
  destruct Hcase as [(Hw & _)|[(Hres & df & out & Hf & Ht & _ & Hw)|(Hw & _)]];
    [left; exact Hw| |left; exact Hw].
  right. destruct (tabulate w); [discriminate|].
  injection Hres as ->. repeat split; trivial. eauto.
Qed.

Lemma failure_keeps_files_or_follows_the_save_witness :
  (finalize_property_data "in.csv" "out.csv" no_price_world
   = (Raise (KeyError ["Price"]),
      snd (finalize_property_data "in.csv" "out.csv" no_price_world)) /\
   files (snd (finalize_property_data "in.csv" "out.csv" no_price_world))
   = files no_price_world) /\
  (finalize_property_data "cleaned.csv" "archive/final.csv" listings_world
   = (Raise (OSError "archive/final.csv"),
      snd (finalize_property_data "cleaned.csv" "archive/final.csv" listings_world)) /\
   files (snd (finalize_property_data "cleaned.csv" "archive/final.csv" listings_world))
   = files listings_world) /\
  (finalize_property_data "cleaned.csv" "final.csv" bare_world
   = (Raise ImportError,
      snd (finalize_property_data "cleaned.csv" "final.csv" bare_world)) /\
   files (snd (finalize_property_data "cleaned.csv" "final.csv" bare_world))
   = <["final.csv" := CsvFile listings_final]> (files bare_world)).
Proof.
  assert (H1 : finalize_property_data "in.csv" "out.csv" no_price_world
               = (Raise (KeyError ["Price"]),
                  snd (finalize_property_data "in.csv" "out.csv" no_price_world)))
    by (vm_compute; reflexivity).
  assert (H2 : finalize_property_data "cleaned.csv" "archive/final.csv" listings_world
               = (Raise (OSError "archive/final.csv"),
                  snd (finalize_property_data "cleaned.csv" "archive/final.csv"
                         listings_world)))
    by (vm_compute; reflexivity).
  assert (H3 : finalize_property_data "cleaned.csv" "final.csv" bare_world
               = (Raise ImportError,
                  snd (finalize_property_data "cleaned.csv" "final.csv" bare_world)))
    by (vm_compute; reflexivity).
  split; [|split].
  - split; [exact H1|].
    destruct (failure_keeps_files_or_follows_the_save _ _ _ _ _ H1)
      as [Hw|(E & _)]; [exact Hw|discriminate].
  - split; [exact H2|].
    destruct (failure_keeps_files_or_follows_the_save _ _ _ _ _ H2)
      as [Hw|(E & _)]; [exact Hw|discriminate].
  - split; [exact H3|]. vm_compute. reflexivity.
Defined.

(** X2: on a readable input that every step accepts and with an output
    path that can be written, the output path holds the transformed table
    when the function ends and every other path is as it was; the function
    returns normally when [tabulate] is installed and ends with the
    [ImportError] of its last line, after the writing, when it is not. *)
Theorem success_writes_only_output input output w df out :
  files w !! input = Some (CsvFile df) ->
  transform df = OK out ->
  writable w output = true ->
  exists w',
    finalize_property_data input output w
      = (if tabulate w then OK tt else Raise ImportError, w') /\
    files w' !! output = Some (CsvFile out) /\
    forall path, path <> output -> files w' !! path = files w !! path.
Proof.
  intros Hf Ht Hwr.
  destruct (finalize_runs_transform input output w df Hf) as (w' & Hr & Hw).
  rewrite Ht, Hwr in Hr, Hw. exists w'. split; [exact Hr|]. rewrite Hw. split.
  - apply lookup_insert_eq.
  - intros path Hp. apply lookup_insert_ne. congruence.
Qed.

Lemma success_writes_only_output_witness :
  files listings_world !! "cleaned.csv" = Some (CsvFile listings) /\
  transform listings = OK listings_final /\
  writable listings_world "final.csv" = true /\
  exists w',
    finalize_property_data "cleaned.csv" "final.csv" listings_world = (OK tt, w') /\
    files w' !! "final.csv" = Some (CsvFile listings_final) /\
    forall path, path <> "final.csv" ->
                 files w' !! path = files listings_world !! path.
Proof.
  assert (Hf : files listings_world !! "cleaned.csv" = Some (CsvFile listings))
    by (vm_compute; reflexivity).
  assert (Ht : transform listings = OK listings_final) by (vm_compute; reflexivity).
  assert (Hw : writable listings_world "final.csv" = true) by reflexivity.
  split; [exact Hf|]. split; [exact Ht|]. split; [exact Hw|].
  exact (success_writes_only_output "cleaned.csv" "final.csv" listings_world _ _
           Hf Ht Hw).
Defined.

Lemma input_is_not_output sep : INPUT_FILE sep <> OUTPUT_FILE sep.
Proof.
  unfold INPUT_FILE, OUTPUT_FILE. intros H.
  apply (inj (String.append base_dir)) in H.
  apply (inj (String.append sep)) in H. discriminate.
Qed.

(** X3: run as a program, the script never changes its input file, nor any
    file but the one at its output path. *)
Theorem main_keeps_input_file sep w r w' :
  main sep w = (r, w') ->
  files w' !! INPUT_FILE sep = files w !! INPUT_FILE sep /\
  forall path, path <> OUTPUT_FILE sep -> files w' !! path = files w !! path.
Proof.
  intros H.
  assert (Hall : forall path, path <> OUTPUT_FILE sep ->
                              files w' !! path = files w !! path).
  { unfold main in H. destruct (os_path_exists (INPUT_FILE sep) w).
    - exact (finalize_changes_output_only _ _ _ _ _ H).
    - injection H as <- <-. reflexivity. }
  split; [|exact Hall]. apply Hall. apply input_is_not_output.
Qed.

Lemma main_keeps_input_file_witness :
  exists w',
    main "\" desktop_world = (OK tt, w') /\
    files w' !! INPUT_FILE "\" = files desktop_world !! INPUT_FILE "\" /\
    forall path, path <> OUTPUT_FILE "\" ->
                 files w' !! path = files desktop_world !! path.
Proof.
  eexists. 
  assert (H : main "\" desktop_world
              = (OK tt, snd (main "\" desktop_world))) by (vm_compute; reflexivity).
  split; [exact H|].
  exact (main_keeps_input_file "\" desktop_world _ _ H).
Defined.

(** ** Columns the function cannot do without *)

Lemma take_object m s cs : take m s = ObjCol cs -> exists cs0, s = ObjCol cs0.
Proof. destruct s as [xs|cs0]; simpl; [discriminate|eauto]. Qed.

Lemma transform_reads df out :
  transform df = OK out ->
  has_col "Price" df = true /\ has_col "Area_sqft" df = true /\
  has_col "Property_Age" df = true /\
  exists cs, get_col "Water Availability" df = Some (ObjCol cs).
Proof.
  intros H.
  destruct (transform_frame _ _ H) as (df0 & df1 & H0 & H1 & _ & Hage & Hw & _).
  destruct (step0_inv _ _ H0) as (sp & sa & Hp & Ha & _ & Hdf0).
  destruct (step1_inv _ _ H1) as (Hh1 & Hu1 & _).
  unfold has_col at 1 2. rewrite Hp, Ha. repeat split.
  - destruct Hage as (age & Hage & _). rewrite <- (has_col_loc _ (both_present sp sa)).
    rewrite <- (has_col_loc _ (map positive (select (both_present sp sa) (values sa)))).
    rewrite <- Hdf0, <- Hh1. unfold has_col. rewrite Hage. reflexivity.
  - destruct Hw as (cs & Hcs & _).
    rewrite Hu1, Hdf0, !get_col_loc in Hcs; [|simpl; intuition discriminate..].
    destruct (get_col "Water Availability" df) as [s|]; [|discriminate].
    simpl in Hcs. injection Hcs as Hcs.
    apply take_object in Hcs. destruct Hcs as [c1 Hcs].
    apply take_object in Hcs. destruct Hcs as [c0 ->]. eauto.
Qed.

(** X4: an output is produced only for a table that has the columns Price,
    Area_sqft, Property_Age and Water Availability, the last one with
    object dtype: without one of them, or with a Water Availability column
    of numbers (one that is empty in every row), there is no output. *)
Theorem output_requires_four_columns df out :
  transform df = OK out ->
  has_col "Price" df = true /\ has_col "Area_sqft" df = true /\
  has_col "Property_Age" df = true /\
  exists cs, get_col "Water Availability" df = Some (ObjCol cs).
Proof. apply transform_reads. Qed.

Lemma output_requires_four_columns_witness :
  transform listings = OK listings_final /\
  has_col "Price" listings = true /\ has_col "Area_sqft" listings = true /\
  has_col "Property_Age" listings = true /\
  exists cs, get_col "Water Availability" listings = Some (ObjCol cs).
Proof.
  split; [vm_compute; reflexivity|].
  apply (output_requires_four_columns listings listings_final).
  vm_compute; reflexivity.
Defined.

(** ** The derived columns *)

Lemma NoDup_final_cols_order : List.NoDup final_cols_order.
Proof.
  unfold final_cols_order. repeat constructor; simpl; intuition discriminate.
Qed.

Lemma output_core_columns df out :
  transform df = OK out ->
  forall n,
    In n ["Price"; "Area_sqft"; "Price_per_sqft"; "Age_in_Years";
          "Water_Availability_Status"] ->
    In n (columns out).
Proof.
  intros H. destruct (transform_reads _ _ H) as (Hp & Ha & _).
  intros n Hn. rewrite (transform_columns _ _ H). apply List.filter_In.
  simpl in Hn. unfold final_cols_order, derived_cols.
  repeat (destruct Hn as [<-|Hn];
          [split; [simpl; tauto|];
           rewrite ?Hp, ?Ha;
           first [reflexivity | apply orb_true_iff; right; reflexivity]|]).
  contradiction.
Qed.

(** X5: every output has the columns Price, Area_sqft, Price_per_sqft,
    Age_in_Years and Water_Availability_Status; Age_in_Years is a column of
    numbers none of which is missing, and Water_Availability_Status holds
    text in every row. *)
Theorem derived_columns_present_and_filled df out :
  transform df = OK out ->
  (forall n,
     In n ["Price"; "Area_sqft"; "Price_per_sqft"; "Age_in_Years";
           "Water_Availability_Status"] ->
     In n (columns out)) /\
  (exists ages, get_col "Age_in_Years" out = Some (FloatCol ages) /\
     Forall (fun x => is_nan x = false) ages) /\
  (exists status, get_col "Water_Availability_Status" out = Some (ObjCol status) /\
     Forall (fun c => exists t, c = Str t) status).
Proof.
  intros H.
  destruct (transform_frame _ _ H) as (df0 & df1 & _ & _ & _ & Hage & Hw & _).
  split; [|split].
  - exact (output_core_columns _ _ H).
  - destruct Hage as (age & _ & Hout). rewrite Hout. unfold map_dict. simpl.
    eexists. split; [reflexivity|].
    apply List.Forall_forall. intros x Hx. apply in_map_iff in Hx.
    destruct Hx as (y & <- & _). destruct (is_nan y) eqn:E; [reflexivity|exact E].
  - destruct Hw as (cs & _ & Hout). rewrite Hout.
    eexists. split; [reflexivity|].
    apply List.Forall_forall. intros c Hc. apply in_map_iff in Hc.
    destruct Hc as (c0 & <- & _). rewrite water_status_of. eauto.
Qed.

Lemma derived_columns_present_and_filled_witness :
  transform listings = OK listings_final /\
  (forall n,
     In n ["Price"; "Area_sqft"; "Price_per_sqft"; "Age_in_Years";
           "Water_Availability_Status"] ->
     In n (columns listings_final)) /\
  (exists ages, get_col "Age_in_Years" listings_final = Some (FloatCol ages) /\
     Forall (fun x => is_nan x = false) ages) /\
  (exists status,
     get_col "Water_Availability_Status" listings_final = Some (ObjCol status) /\
     Forall (fun c => exists t, c = Str t) status).
Proof.
  split; [vm_compute; reflexivity|].
  apply (derived_columns_present_and_filled listings listings_final).
  vm_compute; reflexivity.
Defined.

Lemma NoDup_filter {A} (p : A -> bool) l : List.NoDup l -> List.NoDup (List.filter p l).
Proof.
  induction 1 as [|x l Hx _ IH]; simpl; [constructor|].
  destruct (p x); trivial. constructor; trivial.
  intros Hin. apply List.filter_In in Hin. tauto.
Qed.

(** X6: the names of the columns of an output are distinct, and there are
    at least 5 and at most 28 of them. *)
Theorem output_columns_distinct df out :
  transform df = OK out ->
  List.NoDup (columns out) /\ 5 <= length (columns out) <= 28.
Proof.
  intros H. pose proof (output_core_columns _ _ H) as Hin.
  rewrite (transform_columns _ _ H) in *. split; [|split].
  - apply NoDup_filter, NoDup_final_cols_order.
  - assert (Hincl : incl ["Price"; "Area_sqft"; "Price_per_sqft"; "Age_in_Years";
                          "Water_Availability_Status"]
                      (List.filter
                         (fun col => has_col col df
                                     || existsb (String.eqb col) derived_cols)
                         final_cols_order)) by exact Hin.
    apply NoDup_incl_length in Hincl; [exact Hincl|].
    repeat constructor; simpl; intuition discriminate.
  - pose proof (List.filter_length_le
                  (fun col => has_col col df || existsb (String.eqb col) derived_cols)
                  final_cols_order) as Hle.
    exact Hle.
Qed.

Lemma output_columns_distinct_witness :
  transform listings = OK listings_final /\
  List.NoDup (columns listings_final) /\
  5 <= length (columns listings_final) <= 28.
Proof.
  split; [vm_compute; reflexivity|].
  apply (output_columns_distinct listings listings_final).
  vm_compute; reflexivity.
Defined.

(** ** The columns that are kept *)

Lemma filled_keeps_present v (s s0 : Series) :
  values s = map (fill_cell v) (values s0) ->
  length (values s) = length (values s0) /\
  forall i c, values s0 !! i = Some c -> isna c = false -> values s !! i = Some c.
Proof.
  intros ->. split; [apply length_map|].
  intros i c Hi Hc. rewrite lookup_map, Hi. simpl. f_equal.
  apply fill_cell_id, Hc.
Qed.

Lemma step0_kept_rows df df0 :
  step0 df = OK df0 ->
  exists sp sa,
    get_col "Price" df = Some sp /\ get_col "Area_sqft" df = Some sa /\
    forall n, get_col n df0 = option_map (kept_rows sp sa) (get_col n df).
Proof.
  intros H. destruct (step0_inv _ _ H) as (sp & sa & Hp & Ha & _ & ->).
  exists sp, sa. repeat split; trivial. intros n.
  rewrite !get_col_loc. destruct (get_col n df); reflexivity.
Qed.

(** X7: one and the same selection of rows is applied to every column: a
    column of the output that is not one of the three derived columns is
    the column of that name of the input, cut down to the rows that step 0
    keeps; the imputation changes nothing but missing values, and a column
    that is not imputed comes out exactly as it was cut. *)
Theorem kept_columns_follow_rows df out :
  transform df = OK out ->
  exists sp sa,
    get_col "Price" df = Some sp /\ get_col "Area_sqft" df = Some sa /\
    forall n s,
      get_col n out = Some s -> ~ In n derived_cols ->
      exists s_in,
        get_col n df = Some s_in /\
        length (values s) = length (values (kept_rows sp sa s_in)) /\
        (forall i c, values (kept_rows sp sa s_in) !! i = Some c ->
                     isna c = false -> values s !! i = Some c) /\
        (~ In n numerical_cols -> ~ In n categorical_cols ->
         s = kept_rows sp sa s_in).
Proof.
  intros H.
  destruct (transform_frame _ _ H) as (df0 & df1 & H0 & H1 & Hk & _).
  destruct (step0_kept_rows _ _ H0) as (sp & sa & Hp & Ha & G0).
  destruct (step1_inv _ _ H1) as (_ & Hu & Hnum & Hcat).
  exists sp, sa. repeat split; trivial. intros n s Hs Hd.
  pose proof (transform_in_final _ _ _ _ H Hs) as Hf.
  rewrite Hk in Hs; trivial.
  pose proof (G0 n) as Gn.
  destruct (get_col n df) as [s_in|] eqn:Hin; simpl in Gn.
  2: { rewrite (step1_keeps_absent _ _ _ H1 Gn) in Hs. discriminate. }
  exists s_in. split; trivial.
  destruct (in_dec String.string_dec n numerical_cols) as [Nn|Nn].
  - destruct (Hnum _ _ Nn Gn) as (s' & Hfill & Hs').
    rewrite Hs' in Hs. injection Hs as <-.
    unfold numeric_fill in Hfill. inv_bind Hfill. injection Hfill as <-.
    destruct (filled_keeps_present _ _ _ (values_fillna (Num v) (kept_rows sp sa s_in)))
      as [Hl Hv].
    repeat split; trivial. intros Hc; contradiction.
  - destruct (in_dec String.string_dec n categorical_cols) as [Nc|Nc].
    + rewrite (Hcat _ _ Nc Gn) in Hs. injection Hs as <-.
      destruct (filled_keeps_present _ _ _
                  (values_fillna (Str "Not Specified") (kept_rows sp sa s_in)))
        as [Hl Hv].
      repeat split; trivial. intros _ Hc; contradiction.
    + rewrite Hu, Gn in Hs; trivial. injection Hs as <-. repeat split; trivial.
Qed.

Lemma kept_columns_follow_rows_witness :
  transform listings = OK listings_final /\
  exists sp sa,
    get_col "Price" listings = Some sp /\ get_col "Area_sqft" listings = Some sa /\
    forall n s,
      get_col n listings_final = Some s -> ~ In n derived_cols ->
      exists s_in,
        get_col n listings = Some s_in /\
        length (values s) = length (values (kept_rows sp sa s_in)) /\
        (forall i c, values (kept_rows sp sa s_in) !! i = Some c ->
                     isna c = false -> values s !! i = Some c) /\
        (~ In n numerical_cols -> ~ In n categorical_cols ->
         s = kept_rows sp sa s_in).
Proof.
  split; [vm_compute; reflexivity|].
  apply (kept_columns_follow_rows listings listings_final).
  vm_compute; reflexivity.
Defined.

(** ** Numbers in the numeric columns *)

Lemma to_float_nums cs xs :
  mapM to_float cs = OK xs -> Forall (fun c => is_num c = true) cs.
Proof.
  revert xs; induction cs as [|c cs IH]; simpl; intros xs H; [constructor|].
  inv_bind H. inv_bind H. destruct c; [|discriminate]. constructor; eauto.
Qed.

Lemma median_nums s m :
  median s = OK m -> Forall (fun c => is_num c = true) (values s).
Proof.
  destruct s as [xs|cs]; simpl; intros H.
  - apply List.Forall_forall. intros c Hc. apply in_map_iff in Hc.
    destruct Hc as (x & <- & _). reflexivity.
  - inv_bind H. eapply to_float_nums; eauto.
Qed.

Lemma nums_median s :
  Forall (fun c => is_num c = true) (values s) -> exists m, median s = OK m.
Proof.
  destruct s as [xs|cs]; simpl; [eauto|]. intros H.
  assert (exists xs, mapM to_float cs = OK xs) as [xs ->]; [|simpl; eauto].
  induction H as [|c cs Hc _ [xs IH]]; simpl; [eauto|].
  destruct c; [|discriminate]. simpl. rewrite IH. simpl. eauto.
Qed.

Lemma numeric_column_origin df out col s :
  transform df = OK out -> In col numerical_cols -> get_col col out = Some s ->
  exists df0 s0 m,
    step0 df = OK df0 /\ get_col col df0 = Some s0 /\
    median s0 = OK m /\ s = fillna (Num m) s0.
Proof.
  intros H Hcol Hs.
  destruct (transform_frame _ _ H) as (df0 & df1 & H0 & H1 & Hk & _).
  rewrite Hk in Hs.
  2: { apply existsb_eqb_In. unfold numerical_cols in Hcol. simpl in *. tauto. }
  2: { unfold numerical_cols in Hcol. simpl in *. intuition (subst; discriminate). }
  destruct (get_col col df0) as [s0|] eqn:Hs0.
  2: { rewrite (step1_keeps_absent _ _ _ H1 Hs0) in Hs. discriminate. }
  destruct (step1_inv _ _ H1) as (_ & _ & Hnum & _).
  destruct (Hnum _ _ Hcol Hs0) as (s' & Hfill & Hs').
  rewrite Hs' in Hs. injection Hs as <-.
  unfold numeric_fill in Hfill. inv_bind Hfill. injection Hfill as <-.
  exists df0, s0, v. auto.
Qed.

Lemma numeric_column_nums df out col s :
  transform df = OK out -> In col numerical_cols -> get_col col out = Some s ->
  Forall (fun c => is_num c = true) (values s).
Proof.
  intros H Hcol Hs.
  destruct (numeric_column_origin _ _ _ _ H Hcol Hs) as (df0 & s0 & m & _ & _ & Hm & ->).
  rewrite values_fillna. apply median_nums in Hm.
  apply List.Forall_forall. intros c Hc. apply in_map_iff in Hc.
  destruct Hc as (c0 & <- & Hc0). unfold fill_cell.
  destruct (isna c0); [reflexivity|].
  rewrite List.Forall_forall in Hm. auto.
Qed.

(** ** The shape of the output *)

Lemma rectangular_get n df name s :
  rectangular n df -> get_col name df = Some s -> length (values s) = n.
Proof.
  unfold rectangular. induction 1 as [|[m s'] df Hc _ IH]; simpl; [discriminate|].
  destruct (String.eqb m name); [|exact IH].
  intros E; injection E as <-. exact Hc.
Qed.

Lemma rectangular_setitem n df name s :
  rectangular n df -> length (values s) = n -> rectangular n (setitem name s df).
Proof.
  unfold rectangular. intros H Hs. induction H as [|[m s'] df Hc Hdf IH]; simpl.
  - repeat constructor. exact Hs.
  - destruct (String.eqb m name); constructor; trivial.
Qed.

Lemma select_length {A B} m (xs : list A) (ys : list B) :
  length xs = length ys -> length (select m xs) = length (select m ys).
Proof.
  revert xs ys; induction m as [|b m IH]; intros [|x xs] [|y ys]; simpl;
    try discriminate; trivial.
  intros E. injection E as E. destruct b; simpl; auto.
Qed.

Lemma rectangular_loc n m df :
  rectangular n df ->
  rectangular (length (select m (repeat tt n))) (loc m df).
Proof.
  unfold rectangular, loc. intros H. apply Forall_map.
  eapply Forall_impl; [exact H|]. intros [name s] Hs. simpl in *.
  rewrite values_take. apply select_length. rewrite repeat_length. exact Hs.
Qed.

Lemma length_fillna v s : length (values (fillna v s)) = length (values s).
Proof. rewrite values_fillna. apply length_map. Qed.

Lemma rectangular_update_col g n df col df' :
  (forall s s', g s = OK s' -> length (values s') = length (values s)) ->
  rectangular n df -> update_col g df col = OK df' -> rectangular n df'.
Proof.
  intros Hg Hr. unfold update_col.
  destruct (get_col col df) as [s|] eqn:Hs; intros H.
  - inv_bind H. injection H as <-. apply rectangular_setitem; trivial.
    rewrite (Hg _ _ E). eapply rectangular_get; eauto.
  - injection H as <-. exact Hr.
Qed.

Lemma rectangular_foldM g n cols :
  (forall s s', g s = OK s' -> length (values s') = length (values s)) ->
  forall df df',
    rectangular n df -> foldM (update_col g) cols df = OK df' -> rectangular n df'.
Proof.
  intros Hg. induction cols as [|c cols IH]; simpl; intros df df' Hr H.
  - injection H as <-. exact Hr.
  - inv_bind H. eapply IH; [|exact H].
    eapply rectangular_update_col; eauto.
Qed.

Lemma rectangular_step1 n df df1 :
  rectangular n df -> step1 df = OK df1 -> rectangular n df1.
Proof.
  unfold step1. intros Hr H. inv_bind H.
  rewrite (foldM_ext _ _ _ _ impute_numeric_update) in E.
  rewrite (foldM_ext _ _ _ _ impute_categorical_update) in H.
  eapply rectangular_foldM; [| |exact H].
  - unfold categorical_fill. intros s s' Hs. injection Hs as <-. apply length_fillna.
  - eapply rectangular_foldM; [| exact Hr |exact E].
    unfold numeric_fill. intros s s' Hs. inv_bind Hs. injection Hs as <-.
    apply length_fillna.
Qed.

Lemma rectangular_step2 n df df2 :
  rectangular n df -> step2 df = OK df2 -> rectangular n df2.
Proof.
  intros Hr H. destruct (step2_inv _ _ H) as (age & Hage & ->).
  apply rectangular_setitem; trivial.
  rewrite length_fillna. unfold map_dict. simpl. rewrite !length_map.
  eapply rectangular_get; eauto.
Qed.

Lemma rectangular_step3 n df df3 :
  rectangular n df -> step3 df = OK df3 -> rectangular n df3.
Proof.
  unfold step3. intros Hr H. inv_bind H. apply getitem_OK in E.
  unfold str_extract in H. inv_bind H. inv_bind E0. injection E0 as <-.
  apply str_accessor_OK in E1. subst v.
  pose proof (rectangular_get _ _ _ _ Hr E) as Hn. simpl in Hn.
  inv_bind H. apply getitem_OK in E0. rewrite get_col_setitem_eq in E0.
  injection E0 as <-. inv_bind H. inv_bind H.
  unfold str_map in E0, E1. inv_bind E0. inv_bind E1.
  injection E0 as <-. injection E1 as <-.
  apply str_accessor_OK in E2. simpl in E2. injection E2 as <-.
  apply str_accessor_OK in E3. injection E3 as <-.
  injection H as <-.
  apply rectangular_setitem; [apply rectangular_setitem; trivial|];
    simpl; rewrite !length_map; exact Hn.
Qed.

Lemma rectangular_step4 n df df4 :
  rectangular n df -> step4 df = OK df4 -> rectangular n df4.
Proof.
  intros Hr H.
  destruct (step4_inv _ _ H) as (price & area & ratio & rounded & Hp & Ha & Hd & Hrd & ->).
  apply rectangular_setitem; trivial.
  pose proof (rectangular_get _ _ _ _ Hr Hp) as Lp.
  pose proof (rectangular_get _ _ _ _ Hr Ha) as La.
  destruct price as [xs|cs], area as [ys|ds]; simpl in Hd.
  1: { injection Hd as <-. injection Hrd as <-. simpl in *.
       rewrite !length_map in *. rewrite length_zip_with. lia. }
  all: inv_bind Hd; injection Hd as <-;
    apply mapM_OK_length in E; rewrite length_combine in E;
    destruct v as [|z zs]; [|discriminate];
    injection Hrd as <-; simpl in *; lia.
Qed.

Lemma rectangular_getitems n names df out :
  rectangular n df -> getitems names df = OK out -> rectangular n out.
Proof.
  intros Hr. revert out; induction names as [|a names IH]; simpl; intros out H.
  - injection H as <-. constructor.
  - inv_bind H. inv_bind H. injection H as <-. apply getitem_OK in E.
    constructor; [simpl; eapply rectangular_get; eauto|].
    apply IH. exact E0.
Qed.

Lemma rectangular_step5 n df out :
  rectangular n df -> step5 df = OK out -> rectangular n out.
Proof.
  unfold step5. intros Hr H. eapply rectangular_getitems; [|exact H].
  unfold rectangular, drop. apply List.Forall_forall. intros c Hc.
  apply List.filter_In in Hc. destruct Hc as [Hc _].
  unfold rectangular in Hr. rewrite List.Forall_forall in Hr. auto.
Qed.

Lemma transform_rectangular n df out :
  rectangular n df -> transform df = OK out ->
  exists sp sa,
    get_col "Price" df = Some sp /\ get_col "Area_sqft" df = Some sa /\
    rectangular (length (List.filter keep (combine (values sp) (values sa)))) out.
Proof.
  intros Hr H.
  destruct (transform_inv _ _ H) as (df0 & df1 & df2 & df3 & df4 & H0 & H1 & H2 & H3 & H4 & H5).
  destruct (transform_price_area _ _ H) as (df0' & H0' & Gp & Ga).
  rewrite H0 in H0'. injection H0' as <-.
  destruct (step0_rows _ _ H0) as (sp & sa & p0 & a0 & Hp & Ha & Hp0 & Ha0 & Hrows & _).
  destruct (step0_inv _ _ H0) as (sp' & sa' & _ & _ & _ & Hdf0).
  exists sp, sa. repeat split; trivial.
  assert (R0 : exists k, rectangular k df0).
  { rewrite Hdf0. eexists. apply rectangular_loc, rectangular_loc, Hr. }
  destruct R0 as [k R0].
  assert (Rout : rectangular k out).
  { eapply rectangular_step5; [|exact H5].
    eapply rectangular_step4; [|exact H4].
    eapply rectangular_step3; [|exact H3].
    eapply rectangular_step2; [|exact H2].
    eapply rectangular_step1; [|exact H1]. exact R0. }
  pose proof (rectangular_get _ _ _ _ R0 Hp0) as Lp.
  pose proof (rectangular_get _ _ _ _ R0 Ha0) as La.
  rewrite <- Hrows, length_combine, Lp, La, Nat.min_id. exact Rout.
Qed.

(** X9: a table whose columns all have the same number of rows comes out
    with columns that all have the same number of rows: the number of rows
    of the input that have a Price, an Area_sqft, and an Area_sqft greater
    than 0. *)
Theorem output_is_rectangular n df out :
  rectangular n df ->
  transform df = OK out ->
  exists sp sa,
    get_col "Price" df = Some sp /\ get_col "Area_sqft" df = Some sa /\
    rectangular (length (List.filter keep (combine (values sp) (values sa)))) out.
Proof. apply transform_rectangular. Qed.

Lemma listings_rectangular : rectangular 5 listings.
Proof. unfold rectangular, listings. repeat constructor. Defined.

Lemma output_is_rectangular_witness :
  rectangular 5 listings /\
  transform listings = OK listings_final /\
  exists sp sa,
    get_col "Price" listings = Some sp /\ get_col "Area_sqft" listings = Some sa /\
    rectangular (length (List.filter keep (combine (values sp) (values sa))))
      listings_final.
Proof.
  split; [exact listings_rectangular|].
  split; [vm_compute; reflexivity|].
  apply (output_is_rectangular 5 listings listings_final listings_rectangular).
  vm_compute; reflexivity.
Defined.

(** ** Running the transformation again *)

Lemma gt_zero_nums cs :
  Forall (fun c => is_num c = true) cs -> exists m, mapM gt_zero_cell cs = OK m.
Proof.
  induction 1 as [|c cs Hc _ [m IH]]; simpl; [eauto|].
  destruct c; [|discriminate]. simpl. rewrite IH. simpl. eauto.
Qed.

Lemma step1_total_medians df :
  (forall col s, In col numerical_cols -> get_col col df = Some s ->
                 exists m, median s = OK m) ->
  exists df1, step1 df = OK df1.
Proof.
  intros Hnum. unfold step1.
  rewrite (foldM_ext _ _ _ _ impute_numeric_update).
  destruct (foldM_update_col_total numeric_fill _ NoDup_numerical_cols df) as [dfn ->].
  { intros n s Hn Hs. destruct (Hnum _ _ Hn Hs) as [m Hm].
    unfold numeric_fill. rewrite Hm. simpl. eauto. }
  cbn [bind]. rewrite (foldM_ext _ _ _ _ impute_categorical_update).
  apply foldM_update_col_total; [apply NoDup_categorical_cols|].
  intros n s _ _. unfold categorical_fill. eauto.
Qed.

Lemma output_without_property_age df out :
  transform df = OK out -> get_col "Property_Age" out = None.
Proof.
  intros H.
  destruct (transform_inv _ _ H) as (df0 & df1 & df2 & df3 & df4 & _ & _ & _ & _ & _ & H5).
  apply step5_inv in H5. destruct H5 as [_ Hg]. rewrite Hg. reflexivity.
Qed.

Lemma transform_again df out :
  transform df = OK out -> transform out = Raise (KeyError ["Property_Age"]).
Proof.
  intros H.
  destruct (transform_price_area _ _ H) as (df0 & H0 & Gp & Ga).
  destruct (step0_rows _ _ H0) as (sp & sa & p0 & a0 & _ & _ & Hp0 & Ha0 & _ & _ & Fa).
  rewrite Hp0 in Gp. rewrite Ha0 in Ga.
  assert (Na : Forall (fun c => is_num c = true) (values a0)).
  { eapply Forall_impl; [exact Fa|]. intros c [_ Hc].
    destruct c; [reflexivity|discriminate]. }
  set (m1 := both_present p0 a0).
  destruct (gt_zero_nums (select m1 (values a0))) as [m2 Hm2].
  { apply select_Forall, Na. }
  assert (S0 : step0 out = OK (loc m2 (loc m1 out))).
  { unfold step0, dropna. rewrite Gp, Ga. cbn [bind]. unfold getitem.
    rewrite get_col_loc, Ga. cbn [option_map bind]. unfold gt_zero.
    rewrite values_take. unfold m1, both_present in Hm2. rewrite Hm2.
    reflexivity. }
  destruct (step1_total_medians (loc m2 (loc m1 out))) as [o1 S1].
  { intros col s Hcol Hs. rewrite !get_col_loc in Hs.
    destruct (get_col col out) as [s_out|] eqn:Hso; [|discriminate].
    simpl in Hs. injection Hs as <-. apply nums_median.
    rewrite !values_take. apply select_Forall, select_Forall.
    eapply numeric_column_nums; eauto. }
  assert (Hage : get_col "Property_Age" o1 = None).
  { apply (step1_keeps_absent _ _ _ S1). rewrite !get_col_loc.
    rewrite (output_without_property_age _ _ H). reflexivity. }
  unfold transform. rewrite S0. cbn [bind]. rewrite S1. cbn [bind].
  unfold step2, getitem. rewrite Hage. reflexivity.
Qed.

(** X10: the transformation cannot be applied to its own output: the
    output has lost Property_Age, which step 2 reads without a test, so a
    second run passes the filter and the imputation and then raises
    KeyError for Property_Age. *)
Theorem output_cannot_be_processed_again df out :
  transform df = OK out -> transform out = Raise (KeyError ["Property_Age"]).
Proof. apply transform_again. Qed.

Lemma output_cannot_be_processed_again_witness :
  transform listings = OK listings_final /\
  transform listings_final = Raise (KeyError ["Property_Age"]).
Proof.
  split; [vm_compute; reflexivity|].
  apply (output_cannot_be_processed_again listings listings_final).
  vm_compute; reflexivity.
Defined.

(** ** Which rows have hours of water *)

Lemma many_inv_all p k s m :
  many p k s = Some m ->
  exists pre s' m',
    s = (pre ++ s')%string /\ all_chars p pre = true /\
    k s' = Some m' /\ m = (pre ++ m')%string.
Proof.
  revert m; induction s as [|c s IH]; simpl; intros m H.
  - exists EmptyString, EmptyString, m. auto.
  - destruct (p c) eqn:Hp.
    + destruct (many p k s) as [m0|] eqn:Hm.
      * injection H as <-.
        destruct (IH _ eq_refl) as (pre & s' & m' & -> & Ha & Hk & ->).
        exists (String c pre), s', m'. simpl. rewrite Hp, Ha. auto.
      * exists EmptyString, (String c s), m. auto.
    + exists EmptyString, (String c s), m. auto.
Qed.

Lemma many_complete p k pre s' m' :
  all_chars p pre = true -> k s' = Some m' ->
  exists m, many p k (pre ++ s') = Some m.
Proof.
  intros Ha Hk. induction pre as [|c pre IH]; simpl.
  - destruct s' as [|c s']; simpl; [eauto|].
    destruct (p c); [destruct (many p k s')|]; eauto.
  - simpl in Ha. apply andb_prop in Ha. destruct Ha as [Hc Ha].
    rewrite Hc. destruct (IH Ha) as [m ->]. eauto.
Qed.

Lemma search_inv_prefix re s m :
  search re s = Some m ->
  exists pre s', s = (pre ++ s')%string /\ match_here re s' = Some m.
Proof.
  induction s as [|c s IH]; simpl; destruct (match_here re _) eqn:Hm; intros H;
    try discriminate.
  - injection H as <-. exists EmptyString, EmptyString. auto.
  - injection H as <-. exists EmptyString, (String c s). auto.
  - destruct (IH H) as (pre & s' & -> & Hs). exists (String c pre), s'. auto.
Qed.

Lemma search_complete re pre s' m :
  match_here re s' = Some m -> exists m', search re (pre ++ s') = Some m'.
Proof.
  intros Hm. induction pre as [|c pre IH]; simpl.
  - destruct s'; simpl; rewrite Hm; eauto.
  - destruct (match_here re (String c (pre ++ s'))); eauto.
Qed.

Lemma water_match_parts s m :
  match_here water_pattern s = Some m ->
  exists post, s = (m ++ post)%string /\ hours_text m.
Proof.
  unfold water_pattern. cbn [match_here]. intros H.
  apply one_inv in H. destruct H as (d & s1 & m1 & -> & Hd & H & ->).
  apply many_inv_all in H. destruct H as (ds & s2 & m2 & -> & Hds & H & ->).
  apply many_inv_all in H. destruct H as (ws & s3 & m3 & -> & Hws & H & ->).
  repeat (apply one_inv in H;
          let c := fresh "c" in let E := fresh "Ec" in
          destruct H as (c & ? & ? & -> & E & H & ->);
          apply Ascii.eqb_eq in E; subst c).
  destruct (one _ _ _) as [m4|] eqn:Hs in H.
  - injection H as <-. apply one_inv in Hs.
    destruct Hs as (c & post & ? & -> & E & Hs & ->).
    apply Ascii.eqb_eq in E; subst c. injection Hs as <-.
    exists post. split.
    + simpl. rewrite !append_assoc. reflexivity.
    + exists d, ds, ws, "Hours". auto 10.
  - injection H as <-. eexists. split.
    + simpl. rewrite !append_assoc. simpl. reflexivity.
    + exists d, ds, ws, "Hour". auto 10.
Qed.

Lemma water_match_complete m post :
  hours_text m -> exists m', match_here water_pattern (m ++ post) = Some m'.
Proof.
  intros (d & ds & ws & tail & -> & Hd & Hds & Hws & Ht).
  unfold water_pattern. cbn [match_here].
  match goal with |- context [many is_space ?k] => set (k3 := k) end.
  assert (exists m3, k3 (tail ++ post)%string = Some m3) as [m3 T].
  { unfold k3. destruct Ht as [-> | ->]; simpl; [|eauto].
    destruct (one (is_char "s") (fun _ => Some EmptyString) post); simpl; eauto. }
  destruct (many_complete is_space k3 ws _ _ Hws T) as [m2 M2].
  destruct (many_complete is_digit (many is_space k3) ds _ _ Hds M2) as [m1 M1].
  simpl. rewrite Hd, !append_assoc, M1. simpl. eauto.
Qed.

Lemma status_reads_value c : status_reads c (water_status c).
Proof.
  rewrite water_status_of. unfold status_reads, status_of.
  destruct c as [x|t]; [right; split; [discriminate|reflexivity]|].
  destruct (search water_pattern t) as [m|] eqn:Hs.
  - left. apply search_inv_prefix in Hs. destruct Hs as (pre & s' & -> & Hm).
    apply water_match_parts in Hm. destruct Hm as (post & -> & Hm).
    exists (pre ++ m ++ post)%string, pre, m, post. auto.
  - right. split; [|reflexivity]. intros t' E (pre & m & post & -> & Hm).
    injection E as ->.
    destruct (water_match_complete m post Hm) as [m' Hm'].
    destruct (search_complete _ pre _ _ Hm') as [m'' Hm'']. congruence.
Qed.

Lemma Forall2_map_fun {A B} (R : A -> B -> Prop) (f : A -> B) l :
  (forall a, R a (f a)) -> Forall2 R l (map f l).
Proof. intros H. induction l; simpl; constructor; auto. Qed.

(** X11: a row gets the status "NotSpecified" exactly when its Water
    Availability is missing or has no piece made of a digit, more digits,
    white space and "Hour" or "Hours"; any other row gets such a piece of
    its text, without its space characters. *)
Theorem water_status_reads_hours df out :
  transform df = OK out ->
  exists df0 cs status,
    step0 df = OK df0 /\
    get_col "Water Availability" df0 = Some (ObjCol cs) /\
    get_col "Water_Availability_Status" out = Some (ObjCol status) /\
    Forall2 status_reads cs status.
Proof.
  intros H.
  destruct (transform_frame _ _ H) as (df0 & df1 & H0 & H1 & _ & _ & Hw & _).
  destruct Hw as (cs & Hcs & Hout).
  destruct (step1_inv _ _ H1) as (_ & Hu & _).
  rewrite Hu in Hcs; [|simpl; intuition discriminate..].
  exists df0, cs, (map water_status cs). repeat split; trivial.
  apply Forall2_map_fun. apply status_reads_value.
Qed.

Lemma water_status_reads_hours_witness :
  transform listings = OK listings_final /\
  exists df0 cs status,
    step0 listings = OK df0 /\
    get_col "Water Availability" df0 = Some (ObjCol cs) /\
    get_col "Water_Availability_Status" listings_final = Some (ObjCol status) /\
    Forall2 status_reads cs status.
Proof.
  split; [vm_compute; reflexivity|].
  apply (water_status_reads_hours listings listings_final).
  vm_compute; reflexivity.
Defined.

(** ** The count that step 0 reports *)

Lemma len_rectangular n df :
  rectangular n df -> df <> [] -> len df = n.
Proof.
  unfold rectangular, len. destruct df as [|[name s] df]; [contradiction|].
  intros H _. apply List.Forall_inv in H. exact H.
Qed.

Lemma filter_split_length {A} (p : A -> bool) l :
  length (List.filter p l) + length (List.filter (fun x => negb (p x)) l)
  = length l.
Proof.
  induction l as [|x l IH]; simpl; trivial.
  destruct (p x); simpl; lia.
Qed.

Lemma print_keeps msg m w : In msg (stdout w) -> In msg (stdout (print m w)).
Proof. unfold print. simpl. intros H. apply in_or_app. auto. Qed.

Lemma print_has m w : In m (stdout (print m w)).
Proof. unfold print. simpl. apply in_or_app. right. left. reflexivity. Qed.

Lemma step0_removed n df df0 :
  rectangular n df -> step0 df = OK df0 ->
  exists sp sa,
    get_col "Price" df = Some sp /\ get_col "Area_sqft" df = Some sa /\
    len df - len df0
    = length (List.filter (fun row => negb (keep row))
                (combine (values sp) (values sa))).
Proof.
  intros Hr H0.
  destruct (step0_rows _ _ H0) as (sp & sa & p0 & a0 & Hp & Ha & Hp0 & Ha0 & Hrows & _).
  destruct (step0_inv _ _ H0) as (sp' & sa' & _ & _ & _ & Hdf0).
  exists sp, sa. repeat split; trivial.
  assert (R0 : exists k, rectangular k df0).
  { rewrite Hdf0. eexists. apply rectangular_loc, rectangular_loc, Hr. }
  destruct R0 as [k R0].
  assert (Hne : df <> []) by (intros ->; discriminate).
  assert (Hne0 : df0 <> []) by (intros ->; discriminate).
  rewrite (len_rectangular _ _ Hr Hne), (len_rectangular _ _ R0 Hne0).
  pose proof (rectangular_get _ _ _ _ R0 Hp0) as Lp0.
  pose proof (rectangular_get _ _ _ _ R0 Ha0) as La0.
  pose proof (rectangular_get _ _ _ _ Hr Hp) as Lp.
  pose proof (rectangular_get _ _ _ _ Hr Ha) as La.
  pose proof (filter_split_length keep (combine (values sp) (values sa))) as Hs.
  rewrite <- Hrows, !length_combine, Lp0, La0, Lp, La, !Nat.min_id in Hs. lia.
Qed.

(** X12: on a readable table whose columns have the same number of rows
    and that passes step 0, the function prints, as the number of rows
    removed, the number of rows of the input that lack a Price or an
    Area_sqft or whose Area_sqft is not greater than 0, whatever happens in
    the later steps. *)
Theorem removed_rows_reported input output w n df df0 :
  files w !! input = Some (CsvFile df) ->
  rectangular n df ->
  step0 df = OK df0 ->
  exists sp sa,
    get_col "Price" df = Some sp /\ get_col "Area_sqft" df = Some sa /\
    In (removed_message
          (length (List.filter (fun row => negb (keep row))
                     (combine (values sp) (values sa)))))
       (stdout (snd (finalize_property_data input output w))).
Proof.
  intros Hf Hr H0.
  destruct (step0_removed _ _ _ Hr H0) as (sp & sa & Hp & Ha & Hn).
  exists sp, sa. repeat split; trivial. rewrite <- Hn.
  unfold finalize_property_data, read_csv, attempt. cbn [print files].
  rewrite Hf, H0. fold (removed_message (len df - len df0)).
  match goal with
  | |- context [print (removed_message ?k) ?w0] =>
      pose proof (print_has (removed_message k) w0) as Hin;
      set (w1 := print (removed_message k) w0) in *
  end.
  apply (print_keeps _ "Step 1: Imputing remaining missing values...") in Hin.
  destruct (step1 df0) as [df1|e]; [|exact Hin].
  apply (print_keeps _ "Step 2: Converting 'Property_Age' to a numeric feature 'Age_in_Years'...") in Hin.
  destruct (step2 df1) as [df2|e]; [|exact Hin].
  apply (print_keeps _ "Step 3: Parsing 'Water Availability' into a clean status column...") in Hin.
  destruct (step3 df2) as [df3|e]; [|exact Hin].
  apply (print_keeps _ "Step 4: Creating 'Price_per_sqft' feature...") in Hin.
  destruct (step4 df3) as [df4|e]; [|exact Hin].
  apply (print_keeps _ "Step 5: Finalizing the dataframe...") in Hin.
  destruct (step5 df4) as [out|e]; [|exact Hin].
  apply (print_keeps _ ("Saving analysis-ready data to '" ++ output ++ "'...")) in Hin.
  unfold to_csv. destruct (writable _ output); [|exact Hin].
  cbv beta iota.
  match goal with
  | |- context [if ?b then _ else _] => destruct b
  end; cbn [snd]; do 4 apply print_keeps; cbn [stdout]; exact Hin.
Qed.

Lemma removed_rows_reported_witness :
  files listings_world !! "cleaned.csv" = Some (CsvFile listings) /\
  rectangular 5 listings /\
  exists df0 sp sa,
    step0 listings = OK df0 /\
    get_col "Price" listings = Some sp /\ get_col "Area_sqft" listings = Some sa /\
    In (removed_message
          (length (List.filter (fun row => negb (keep row))
                     (combine (values sp) (values sa)))))
       (stdout (snd (finalize_property_data "cleaned.csv" "final.csv" listings_world))).
Proof.
  assert (Hf : files listings_world !! "cleaned.csv" = Some (CsvFile listings))
    by (vm_compute; reflexivity).
  split; [exact Hf|]. split; [exact listings_rectangular|].
  destruct (step0 listings) as [df0|e] eqn:H0; [|vm_compute in H0; discriminate].
  exists df0.
  destruct (removed_rows_reported "cleaned.csv" "final.csv" listings_world 5
              listings df0 Hf listings_rectangular H0) as (sp & sa & Hp & Ha & Hin).
  exists sp, sa. auto.
Defined.

(** ** When no row survives *)

Lemma unusable_required_present : required_present unusable_listings.
Proof.
  unfold required_present. repeat split.
  - eexists. vm_compute. reflexivity.
  - eexists. vm_compute. reflexivity.
  - eexists. split; [vm_compute; reflexivity|].
    repeat constructor; solve [left; reflexivity | right; reflexivity].
  - intros col s Hcol Hs. unfold numerical_cols in Hcol. simpl in Hcol.
    repeat (destruct Hcol as [<-|Hcol];
            [vm_compute in Hs; first [discriminate | injection Hs as <-; eauto]|]).
    contradiction.
Defined.

(** X13: when the filter leaves no row, the function does not stop: the
    table that has the required columns comes out with its columns and no
    row. *)
Theorem no_surviving_row_gives_empty_table n df sp sa :
  required_present df ->
  rectangular n df ->
  get_col "Price" df = Some sp ->
  get_col "Area_sqft" df = Some sa ->
  List.filter keep (combine (values sp) (values sa)) = [] ->
  exists out, transform df = OK out /\ rectangular 0 out.
Proof.
  intros Hreq Hr Hp Ha Hnone.
  destruct (transform_total _ Hreq) as [out H]. exists out. split; trivial.
  destruct (transform_rectangular _ _ _ Hr H) as (sp' & sa' & Hp' & Ha' & Hout).
  rewrite Hp in Hp'. rewrite Ha in Ha'. injection Hp' as <-. injection Ha' as <-.
  rewrite Hnone in Hout. exact Hout.
Qed.

Lemma no_surviving_row_gives_empty_table_witness :
  required_present unusable_listings /\
  rectangular 2 unusable_listings /\
  exists out, transform unusable_listings = OK out /\ rectangular 0 out.
Proof.
  assert (Hr : rectangular 2 unusable_listings)
    by (unfold rectangular, unusable_listings; repeat constructor).
  split; [exact unusable_required_present|]. split; [exact Hr|].
  apply (no_surviving_row_gives_empty_table 2 unusable_listings
           (FloatCol [nan; 500000]%float) (FloatCol [300; 0]%float)
           unusable_required_present Hr); vm_compute; reflexivity.
Defined.

(** ** Columns the function cannot read *)

(** X14: for a table that passes the filter and the imputation and has
    Property_Age, the function raises KeyError when there is no Water
    Availability column, and AttributeError when that column holds numbers
    (as it does when it is empty in every row). *)
Theorem water_column_must_hold_text df df0 df1 :
  step0 df = OK df0 ->
  step1 df0 = OK df1 ->
  has_col "Property_Age" df = true ->
  (get_col "Water Availability" df = None ->
   transform df = Raise (KeyError ["Water Availability"])) /\
  (forall xs, get_col "Water Availability" df = Some (FloatCol xs) ->
   transform df = Raise AttributeError).
Proof.
  intros H0 H1 Hage.
  destruct (step0_kept_rows _ _ H0) as (sp & sa & _ & _ & G0).
  destruct (step1_inv _ _ H1) as (Hh1 & Hu1 & _).
  assert (Hage1 : exists age, get_col "Property_Age" df1 = Some age).
  { specialize (Hh1 "Property_Age"). unfold has_col in Hh1, Hage.
    rewrite G0 in Hh1. destruct (get_col "Property_Age" df); [|discriminate].
    simpl in Hh1. destruct (get_col "Property_Age" df1); [eauto|discriminate]. }
  destruct Hage1 as [age Hage1].
  assert (Hw : get_col "Water Availability" df1
               = option_map (kept_rows sp sa) (get_col "Water Availability" df)).
  { rewrite Hu1, G0; [reflexivity|simpl; intuition discriminate..]. }
  assert (Hrun : transform df
            = let* df := step3 (setitem "Age_in_Years"
                                  (fillna (Num (-1)%float) (map_dict age_map age)) df1) in
              let* df := step4 df in step5 df).
  { unfold transform. rewrite H0. cbn [bind]. rewrite H1. cbn [bind].
    unfold step2, getitem. rewrite Hage1. reflexivity. }
  split.
  - intros Hnone. rewrite Hrun. unfold step3, getitem.
    rewrite get_col_setitem_ne, Hw, Hnone by discriminate. reflexivity.
  - intros xs Hxs. rewrite Hrun. unfold step3, getitem.
    rewrite get_col_setitem_ne, Hw, Hxs by discriminate. reflexivity.
Qed.

Lemma water_column_must_hold_text_witness :
  transform no_water_column = Raise (KeyError ["Water Availability"]) /\
  transform no_water_listings = Raise AttributeError.
Proof.
  split.
  - destruct (step0 no_water_column) as [df0|e] eqn:H0;
      [|vm_compute in H0; discriminate].
    destruct (step1 df0) as [df1|e] eqn:H1.
    + apply (water_column_must_hold_text no_water_column df0 df1 H0 H1);
        vm_compute; reflexivity.
    + exfalso. vm_compute in H0. injection H0 as <-. vm_compute in H1. discriminate.
  - destruct (step0 no_water_listings) as [df0|e] eqn:H0;
      [|vm_compute in H0; discriminate].
    destruct (step1 df0) as [df1|e] eqn:H1.
    + apply (water_column_must_hold_text no_water_listings df0 df1 H0 H1
               eq_refl) with (xs := [nan; nan]%float).
      vm_compute; reflexivity.
    + exfalso. vm_compute in H0. injection H0 as <-. vm_compute in H1. discriminate.
Defined.

(** ** An area that is not a number *)

Lemma gt_zero_text cs t :
  In (Str t) cs -> mapM gt_zero_cell cs = Raise TypeError.
Proof.
  induction cs as [|c cs IH]; simpl; [contradiction|].
  intros [->|Hin]; [reflexivity|].
  destruct c; [|reflexivity]. simpl. rewrite (IH Hin). reflexivity.
Qed.

Lemma select_both_In {A B} (f : A -> bool) (g : B -> bool) xs ys x y :
  In (x, y) (combine xs ys) -> f x = true -> g y = true ->
  In y (select (zip_with andb (map f xs) (map g ys)) ys).
Proof.
  intros Hin Hx Hy. revert ys Hin; induction xs as [|a xs IH]; intros [|b ys] Hin;
    simpl in *; try contradiction.
  destruct Hin as [E|Hin].
  - injection E as -> ->. rewrite Hx, Hy. simpl. auto.
  - destruct (f a && g b); simpl; auto.
Qed.

(** X15: when a row has a Price and an Area_sqft that is text, the
    comparison of the areas with 0 raises TypeError and there is no
    output. *)
Theorem worded_area_raises df sp sa p t :
  get_col "Price" df = Some sp ->
  get_col "Area_sqft" df = Some sa ->
  In (p, Str t) (combine (values sp) (values sa)) ->
  notna p = true ->
  transform df = Raise TypeError.
Proof.
  intros Hp Ha Hin Hpn.
  unfold transform, step0, dropna. rewrite Hp, Ha. cbn [bind].
  unfold getitem. rewrite get_col_loc, Ha. cbn [option_map bind].
  unfold gt_zero. rewrite values_take.
  rewrite (gt_zero_text _ t); [reflexivity|].
  apply (select_both_In notna notna _ _ p); trivial.
Qed.

Lemma worded_area_raises_witness :
  transform worded_area = Raise TypeError.
Proof.
  apply (worded_area_raises worded_area (FloatCol [900000; 450000]%float)
           (ObjCol [NaN; Str "1,200"]) (Num 450000%float) "1,200");
    try (vm_compute; reflexivity).
  simpl. right. left. reflexivity.
Defined.

(** ** The script run as a program *)

(** X16: run as a program on an input file that is there, can be read and
    is accepted by every step, with an output path that can be written,
    the script leaves the transformed table at its output path and the
    input file as it was; it ends normally when [tabulate] is installed
    and with the [ImportError] of its last line when it is not. *)
Theorem main_writes_output sep w df out :
  files w !! INPUT_FILE sep = Some (CsvFile df) ->
  transform df = OK out ->
  writable w (OUTPUT_FILE sep) = true ->
  exists w',
    main sep w = (if tabulate w then OK tt else Raise ImportError, w') /\
    files w' !! OUTPUT_FILE sep = Some (CsvFile out) /\
    files w' !! INPUT_FILE sep = Some (CsvFile df).
Proof.
  intros Hf Ht Hwr. unfold main, os_path_exists. rewrite Hf.
  destruct (finalize_runs_transform (INPUT_FILE sep) (OUTPUT_FILE sep) w df Hf)
    as (w' & Hr & Hw).
  rewrite Ht, Hwr in Hr, Hw. exists w'. split; [exact Hr|]. rewrite Hw. split.
  - apply lookup_insert_eq.
  - rewrite lookup_insert_ne; [exact Hf|].
    intros E. symmetry in E. exact (input_is_not_output sep E).
Qed.

Lemma main_writes_output_witness :
  files desktop_world !! INPUT_FILE "\" = Some (CsvFile listings) /\
  transform listings = OK listings_final /\
  writable desktop_world (OUTPUT_FILE "\") = true /\
  exists w',
    main "\" desktop_world = (OK tt, w') /\
    files w' !! OUTPUT_FILE "\" = Some (CsvFile listings_final) /\
    files w' !! INPUT_FILE "\" = Some (CsvFile listings).
Proof.
  assert (Hf : files desktop_world !! INPUT_FILE "\" = Some (CsvFile listings))
    by (vm_compute; reflexivity).
  assert (Ht : transform listings = OK listings_final) by (vm_compute; reflexivity).
  assert (Hw : writable desktop_world (OUTPUT_FILE "\") = true) by reflexivity.
  split; [exact Hf|]. split; [exact Ht|]. split; [exact Hw|].
  exact (main_writes_output "\" desktop_world _ _ Hf Ht Hw).
Defined.
